(** * helper.py: diagnostics of fitted regression models

    A shallow embedding of the analysis and assumption-checking part of
    [helper.py] (missing-value summary, SSE and R², residuals, the five
    assumption checks of a linear model and the dispatcher on the model's
    class), followed by the properties of these functions.

    Numbers are IEEE 754 binary64 values, as numpy and pandas hold them:
    Rocq's primitive [float].  A call that can raise is a computation in the
    monad [M]; what the libraries do (numpy, pandas, scikit-learn, statsmodels,
    matplotlib) is a parameter of the development, instantiated in the closed
    examples. *)

From Stdlib Require Import Floats ZArith String List Bool Lia.
Import ListNotations.

Set Warnings "-inexact-float".
Local Open Scope string_scope.
Local Open Scope list_scope.

(** ** Values *)

(** A cell of a pandas DataFrame. *)
Inductive cell :=
| Num (x : float)
| Str (s : string)
| NoneCell.

(** A one-dimensional numeric array (numpy array or pandas Series). *)
Definition vector := list float.

(** A two-dimensional numeric array, by rows. *)
Definition matrix := list (list float).

(** A DataFrame: its number of rows ([len(df)]) and its named columns, in
    order. *)
Record DataFrame := mkFrame {
  nrows : nat;
  columns : list (string * list cell)
}.

(** The classes [helper.py] tests a model against. *)
Inductive py_class :=
| LinearRegression
| RegressionResultsWrapper
| Ridge
| Lasso
| LogisticRegression.

Definition py_class_eqb (a b : py_class) : bool :=
  match a, b with
  | LinearRegression, LinearRegression
  | RegressionResultsWrapper, RegressionResultsWrapper
  | Ridge, Ridge
  | Lasso, Lasso
  | LogisticRegression, LogisticRegression => true
  | _, _ => false
  end.

(** What a function of the module hands back where Python returns either a
    boolean or a message. *)
Inductive py_value :=
| PyBool (b : bool)
| PyStr (s : string).

(** ** Exceptions, the log of library calls, and the monad *)

(** An exception is either one [helper.py] raises itself or one that comes
    out of a library call. *)
Inductive exn :=
| ValueError (msg : string)
| LibraryError (what : string).

(** The answer of a library call: a value, or the exception it raised. *)
Inductive answer (A : Type) :=
| Ok (a : A)
| Fails (what : string).
Arguments Ok {A} a.
Arguments Fails {A} what.

Inductive outcome (A : Type) :=
| Returns (a : A)
| Raises (e : exn).
Arguments Returns {A} a.
Arguments Raises {A} e.

(** A figure handed to matplotlib / seaborn. *)
Inductive figure :=
| ScatterActualPredicted (actual predicted : vector)
| ResidualHistogram (residuals : vector)
| CorrelationHeatmap (c : matrix).

Inductive event :=
| EvPredict (X : DataFrame)
| EvNormalAD (residuals : vector)
| EvCorr (X : DataFrame)
| EvShow (f : figure)
| EvCall (fn : string).

Definition log := list event.

Definition M (A : Type) : Type := log -> outcome A * log.

Definition ret {A} (a : A) : M A := fun w => (Returns a, w).

Definition raise {A} (e : exn) : M A := fun w => (Raises e, w).

Definition bind {A B} (m : M A) (k : A -> M B) : M B :=
  fun w =>
    match m w with
    | (Returns a, w') => k a w'
    | (Raises e, w') => (Raises e, w')
    end.

(** A library call: it is recorded, then returns or raises. *)
Definition from_library {A} (r : answer A) : outcome A :=
  match r with
  | Ok a => Returns a
  | Fails what => Raises (LibraryError what)
  end.

Definition call {A} (ev : event) (r : answer A) : M A :=
  fun w => (from_library r, w ++ [ev]).

Definition when (b : bool) (m : M unit) : M unit :=
  if b then m else ret tt.

Declare Scope py_scope.
Delimit Scope py_scope with py.
Notation "x <- m ;; k" := (bind m (fun x => k))
  (at level 61, m at next level, right associativity) : py_scope.
Notation "' pat <- m ;; k" := (bind m (fun x => match x with pat => k end))
  (at level 61, pat pattern, m at next level, right associativity) : py_scope.
Notation "m ;;; k" := (bind m (fun _ => k))
  (at level 61, right associativity) : py_scope.
Local Open Scope py_scope.

(** ** Models *)

(** A model object: what [isinstance] answers for it, its [predict] method
    when it has one ([hasattr(model, 'predict')]), and the [f_pvalue] of a
    statsmodels results wrapper. *)
Record model := mkModel {
  instance_of : py_class -> bool;
  predict_method : option (DataFrame -> answer vector);
  f_pvalue : float
}.

(** [isinstance(model, (C1, ..., Cn))]. *)
Definition isinstance (m : model) (cs : list py_class) : bool :=
  existsb (instance_of m) cs.

Definition hasattr_predict (m : model) : bool :=
  match predict_method m with Some _ => true | None => false end.

(** [model.predict(X)]; a model without the method raises AttributeError. *)
Definition predict (m : model) (X : DataFrame) : M vector :=
  match predict_method m with
  | Some f => call (EvPredict X) (f X)
  | None => raise (LibraryError "AttributeError: predict")
  end.

(** ** Arrays *)

Definition float_of_nat (n : nat) : float :=
  of_uint63 (Uint63.of_Z (Z.of_nat n)).

(** Elementwise operation on two one-dimensional arrays, with numpy's
    broadcasting of a one-element operand; other length mismatches raise. *)
Fixpoint zip_with {A B C} (f : A -> B -> C) (xs : list A) (ys : list B) : list C :=
  match xs, ys with
  | x :: xs', y :: ys' => f x y :: zip_with f xs' ys'
  | _, _ => []
  end.

Definition elementwise (f : float -> float -> float) (a b : vector) : answer vector :=
  if Nat.eqb (length a) (length b) then Ok (zip_with f a b)
  else match a, b with
       | [x], _ => Ok (map (f x) b)
       | _, [y] => Ok (map (fun x => f x y) a)
       | _, _ => Fails "ValueError: operands could not be broadcast together"
       end.

(** [x ** 2] on a float64 array. *)
Definition square (a : vector) : vector := map (fun x => (x * x)%float) a.

(** numpy adds the entries of a contiguous float64 array with its routine
    [pairwise_sum].  Fewer than eight entries are added to zero one after the
    other.  From eight entries on, eight partial sums run side by side over
    the blocks of eight entries; they are then added two by two, and the
    entries left after the last full block are added at the end.  An array
    of more than 128 entries is cut in two, the first part being half the
    array rounded down to a multiple of eight, and the sums of the two parts
    are added. *)
Record partial_sums := mkPartialSums {
  acc0 : float; acc1 : float; acc2 : float; acc3 : float;
  acc4 : float; acc5 : float; acc6 : float; acc7 : float
}.

Fixpoint add_blocks (r : partial_sums) (a : vector) : partial_sums * vector :=
  match a with
  | a0 :: a1 :: a2 :: a3 :: a4 :: a5 :: a6 :: a7 :: rest =>
      add_blocks (mkPartialSums (acc0 r + a0) (acc1 r + a1) (acc2 r + a2) (acc3 r + a3)
                                (acc4 r + a4) (acc5 r + a5) (acc6 r + a6) (acc7 r + a7))
                 rest
  | _ => (r, a)
  end.

Definition block_sum (a : vector) : float :=
  match a with
  | a0 :: a1 :: a2 :: a3 :: a4 :: a5 :: a6 :: a7 :: rest =>
      let (r, left_over) := add_blocks (mkPartialSums a0 a1 a2 a3 a4 a5 a6 a7) rest in
      fold_left PrimFloat.add left_over
                (((acc0 r + acc1 r) + (acc2 r + acc3 r)) +
                 ((acc4 r + acc5 r) + (acc6 r + acc7 r)))%float
  | _ => fold_left PrimFloat.add a 0%float
  end.

(** [depth] bounds the number of times the array is cut in two; the length
    of the array is always enough. *)
Fixpoint pairwise_sum (depth : nat) (a : vector) : float :=
  let n := length a in
  if Nat.ltb n 8 then fold_left PrimFloat.add a 0%float
  else if Nat.leb n 128 then block_sum a
  else match depth with
       | O => block_sum a
       | S depth' =>
           let n2 := (n / 2 - (n / 2) mod 8)%nat in
           (pairwise_sum depth' (firstn n2 a) + pairwise_sum depth' (skipn n2 a))%float
       end.

(** [np.sum] of the squared differences.  The labels are a pandas Series (a
    column of the data), so the differences and their squares are a Series
    too, and [np.sum] of a Series is [Series.sum()]: the entries that are
    NaN are left out, which pandas does by putting zero in their place, and
    numpy adds the values to the initial value zero. *)
Definition np_sum (a : vector) : float :=
  let values := map (fun x => if is_nan x then 0%float else x) a in
  (0 + pairwise_sum (length values) values)%float.

(** ** Integer data *)

(** On int64 arrays numpy computes in 64-bit two's complement: a result out
    of range wraps around. *)
Definition wrap64 (z : Z) : Z := ((z + 2 ^ 63) mod 2 ^ 64 - 2 ^ 63)%Z.

(** A model whose [predict] returns an int64 array, as a classifier's
    predicted classes are. *)
Record classifier := mkClassifier {
  classifier_instance_of : py_class -> bool;
  predict_classes : option (DataFrame -> answer (list Z))
}.

Definition predict_int64 (m : classifier) (X : DataFrame) : M (list Z) :=
  match predict_classes m with
  | Some f => call (EvPredict X) (f X)
  | None => raise (LibraryError "AttributeError: predict")
  end.

Definition elementwise_int64 (f : Z -> Z -> Z) (a b : list Z) : answer (list Z) :=
  if Nat.eqb (length a) (length b) then Ok (zip_with f a b)
  else match a, b with
       | [x], _ => Ok (map (f x) b)
       | _, [y] => Ok (map (fun x => f x y) a)
       | _, _ => Fails "ValueError: operands could not be broadcast together"
       end.

Definition sub_int64 (x y : Z) : Z := wrap64 (x - y).

Definition square_int64 (a : list Z) : list Z := map (fun x => wrap64 (x * x)) a.

(** An int64 Series has no missing entries; the sum wraps like every other
    operation, so the order of the additions does not show. *)
Definition np_sum_int64 (a : list Z) : Z :=
  fold_left (fun acc x => wrap64 (acc + x)) a 0%Z.

(** A library operation that leaves no trace in the log. *)
Definition lift {A} (r : answer A) : M A := fun w => (from_library r, w).

(** [x >= y] and [x > y] on floats: false as soon as an operand is NaN. *)
Definition geb (x y : float) : bool := (y <=? x)%float.
Definition gtb (x y : float) : bool := (y <? x)%float.

(** ** Missing values *)

(** [isna]: NaN and None are missing, anything else is not. *)
Definition isna (c : cell) : bool :=
  match c with
  | Num x => is_nan x
  | Str _ => false
  | NoneCell => true
  end.

(** One row of the table [check_for_missing_values] returns: the column's
    label, then the columns ['N missing'] and ['% missing']. *)
Record missing_row := mkMissing {
  column_label : string;
  n_missing : nat;
  pct_missing : float
}.

(** [df.isna().sum()]: per column, how many cells are missing. *)
Definition isna_sum (df : DataFrame) : list (string * nat) :=
  map (fun c => (fst c, length (filter isna (snd c)))) (columns df).

Definition check_for_missing_values (df : DataFrame) : list missing_row :=
  let missing_values := isna_sum df in
  let non_zero_missing :=
    filter (fun c => negb (Nat.eqb (snd c) 0)) missing_values in
  let non_zero_missing_percentage :=
    map (fun c => (float_of_nat (snd c) / float_of_nat (nrows df) * 100)%float)
        non_zero_missing in
  zip_with (fun c p => mkMissing (fst c) (snd c) p)
           non_zero_missing non_zero_missing_percentage.

(** ** Residuals *)

(** One row of the frame [calculate_residuals] returns. *)
Record residual_record := mkResidual {
  Actual : float;
  Predicted : float;
  Residuals : float
}.

(** [pd.DataFrame({'Actual': labels, 'Predicted': y_pred})].  The labels and
    the predictions carry the same row labels, so the rows are paired in
    order; predictions in an array must be as many as the labels. *)
Definition actual_predicted (labels y_pred : vector) : answer (list (float * float)) :=
  if Nat.eqb (length labels) (length y_pred)
  then Ok (combine labels y_pred)
  else Fails "ValueError: All arrays must be of the same length".

Definition calculate_residuals (m : model) (features : DataFrame) (labels : vector)
  : M (list residual_record) :=
  y_pred <- predict m features ;;
  df_results <- lift (actual_predicted labels y_pred) ;;
  ret (map (fun r => mkResidual (fst r) (snd r) (abs (fst r) - abs (snd r))%float)
           df_results).

(** ** Correlation matrices *)

(** [np.fill_diagonal(a, val)] on a two-dimensional array. *)
Fixpoint set_nth (i : nat) (v : float) (row : list float) : list float :=
  match row, i with
  | [], _ => []
  | _ :: r, O => v :: r
  | x :: r, S i' => x :: set_nth i' v r
  end.

Fixpoint fill_diagonal_from (i : nat) (a : matrix) (v : float) : matrix :=
  match a with
  | [] => []
  | row :: rest => set_nth i v row :: fill_diagonal_from (S i) rest v
  end.

Definition fill_diagonal (a : matrix) (v : float) : matrix :=
  fill_diagonal_from 0 a v.

(** [(frame <cmp> c).any().any()]: some entry passes the test. *)
Definition any_any (test : float -> bool) (a : matrix) : bool :=
  existsb (existsb test) a.

(** ** The functions of helper.py that call the libraries *)

(** [has_constant] of [sm.add_constant]. *)
Inductive has_constant := HasConstantSkip | HasConstantAdd.

(** The branch the [isinstance] chain of [check_model_assumptions] takes. *)
Inductive code_path :=
| LinearPath
| RidgeLassoPath
| LogisticPath
| UnsupportedPath.

Section Helper.

(** statsmodels, scikit-learn, pandas and matplotlib. *)
Variable add_constant : has_constant -> DataFrame -> DataFrame.
Variable r2_score : vector -> vector -> answer float.
Variable normal_ad : vector -> answer (float * float).
Variable corr : DataFrame -> answer matrix.
Variable show : figure -> answer unit.

(** Functions the module calls and does not define. *)
Variable independence_of_errors_assumption :
  model -> DataFrame -> vector -> bool -> M (option string * float).
Variable equal_variance_assumption :
  model -> DataFrame -> vector -> float -> bool -> M (string * float).
Variable are_assumptions_satisfied_ridge_lasso :
  model -> DataFrame -> vector -> float -> M py_value.
Variable are_assumptions_satisfied_logistic :
  model -> DataFrame -> vector -> float -> M py_value.

Definition plt_show (f : figure) : M unit := call (EvShow f) (show f).

Definition get_sse (m : model) (features : DataFrame) (labels : vector) : M float :=
  if hasattr_predict m then
    let features :=
      if isinstance m [RegressionResultsWrapper]
      then add_constant HasConstantAdd features else features in
    y_pred <- predict m features ;;
    diff <- lift (elementwise PrimFloat.sub labels y_pred) ;;
    let sse := np_sum (square diff) in
    ret sse
  else raise (ValueError "Unsupported model type for SSE calculation.").

(** The same function on int64 labels and a model that predicts int64
    values. *)
Definition get_sse_int64 (m : classifier) (features : DataFrame) (labels : list Z) : M Z :=
  if match predict_classes m with Some _ => true | None => false end then
    let features :=
      if existsb (classifier_instance_of m) [RegressionResultsWrapper]
      then add_constant HasConstantAdd features else features in
    y_pred <- predict_int64 m features ;;
    diff <- lift (elementwise_int64 sub_int64 labels y_pred) ;;
    let sse := np_sum_int64 (square_int64 diff) in
    ret sse
  else raise (ValueError "Unsupported model type for SSE calculation.").

Definition get_rsquared (m : model) (features : DataFrame) (labels : vector) : M float :=
  if hasattr_predict m then
    let features :=
      if isinstance m [RegressionResultsWrapper]
      then add_constant HasConstantAdd features else features in
    y_pred <- predict m features ;;
    r_squared <- lift (r2_score labels y_pred) ;;
    ret r_squared
  else raise (ValueError "Unsupported model type for R² calculation.").

Definition linear_assumption (m : model) (features : DataFrame) (labels : vector)
    (p_value_thresh : float) (plot : bool) : M (bool * option float) :=
  df_results <- calculate_residuals m features labels ;;
  let y_pred := map Predicted df_results in
  when plot (plt_show (ScatterActualPredicted labels y_pred)) ;;;
  if isinstance m [RegressionResultsWrapper] then
    let p_value := f_pvalue m in
    let is_linearity_found := (p_value <? p_value_thresh)%float in
    ret (is_linearity_found, Some p_value)
  else ret (true, None).

Definition normality_of_errors_assumption (m : model) (features : DataFrame)
    (label : vector) (p_value_thresh : float) (plot : bool) : M (string * float) :=
  df_results <- calculate_residuals m features label ;;
  let residuals := map Residuals df_results in
  when plot (plt_show (ResidualHistogram residuals)) ;;;
  ad <- call (EvNormalAD residuals) (normal_ad residuals) ;;
  let p_value := snd ad in
  let dist_type := if geb p_value p_value_thresh then "normal" else "non-normal" in
  ret (dist_type, p_value).

Definition perfect_collinearity_assumption (features : DataFrame) (plot : bool) : M bool :=
  correlation_matrix <- call (EvCorr features) (corr features) ;;
  when plot (plt_show (CorrelationHeatmap correlation_matrix)) ;;;
  let correlation_matrix := fill_diagonal correlation_matrix nan in
  let pos_perfect_collinearity :=
    any_any (fun c => gtb c 0.999%float) correlation_matrix in
  let neg_perfect_collinearity :=
    any_any (fun c => (c <? -0.999)%float) correlation_matrix in
  let has_perfect_collinearity :=
    pos_perfect_collinearity || neg_perfect_collinearity in
  ret has_perfect_collinearity.

Definition is_not_None {A} (o : option A) : bool :=
  match o with Some _ => true | None => false end.

Definition are_assumptions_satisfied_linear (m : model) (features : DataFrame)
    (labels : vector) (p_value_thresh : float) : M py_value :=
  let x_with_const := add_constant HasConstantSkip features in
  lin <- linear_assumption m x_with_const labels p_value_thresh false ;;
  ind <- independence_of_errors_assumption m x_with_const labels false ;;
  nor <- normality_of_errors_assumption m x_with_const labels p_value_thresh false ;;
  equ <- equal_variance_assumption m x_with_const labels p_value_thresh false ;;
  has_perfect_collinearity <- perfect_collinearity_assumption features false ;;
  let is_linearity_found := fst lin in
  let autocorrelation := fst ind in
  let n_dist_type := fst nor in
  let e_dist_type := fst equ in
  if negb is_linearity_found then
    ret (PyStr "Linearity assumption is not satisfied.")
  else if is_not_None autocorrelation then
    ret (PyStr "Independence of errors (no autocorrelation) assumption is not satisfied.")
  else if negb (String.eqb n_dist_type "normal") then
    ret (PyStr ("Normality of errors assumption is not satisfied. Distribution type: "
                ++ n_dist_type))
  else if negb (String.eqb e_dist_type "equal") then
    ret (PyStr ("Equal variance (homoscedasticity) assumption is not satisfied. Distribution type: "
                ++ e_dist_type))
  else if has_perfect_collinearity then
    ret (PyStr "Perfect collinearity assumption is not satisfied.")
  else ret (PyBool true).

(** The chain of [isinstance] tests of [check_model_assumptions], then the
    call made in the branch taken. *)
Definition route (m : model) : code_path :=
  if isinstance m [LinearRegression; RegressionResultsWrapper] then LinearPath
  else if isinstance m [Ridge; Lasso] then RidgeLassoPath
  else if isinstance m [LogisticRegression] then LogisticPath
  else UnsupportedPath.

Definition check_model_assumptions (m : model) (features : DataFrame)
    (labels : vector) (p_value_thresh : float) : M py_value :=
  match route m with
  | LinearPath =>
      are_assumptions_satisfied_linear m features labels p_value_thresh
  | RidgeLassoPath =>
      are_assumptions_satisfied_ridge_lasso m features labels p_value_thresh
  | LogisticPath =>
      are_assumptions_satisfied_logistic m features labels p_value_thresh
  | UnsupportedPath =>
      ret (PyStr "Model type not supported for assumption checks.")
  end.

End Helper.

(** ** What the assumption checks report, in the words of the specification *)

(** The five checks in their fixed order, each with whether it is satisfied
    and the reason given when it is not. *)
Definition assumption_reports (lin : bool * option float) (ind : option string * float)
    (nor equ : string * float) (has_perfect_collinearity : bool) : list (bool * string) :=
  [ (fst lin, "Linearity assumption is not satisfied.");
    (match fst ind with None => true | Some _ => false end,
     "Independence of errors (no autocorrelation) assumption is not satisfied.");
    (String.eqb (fst nor) "normal",
     ("Normality of errors assumption is not satisfied. Distribution type: "
        ++ fst nor)%string);
    (String.eqb (fst equ) "equal",
     ("Equal variance (homoscedasticity) assumption is not satisfied. Distribution type: "
        ++ fst equ)%string);
    (negb has_perfect_collinearity,
     "Perfect collinearity assumption is not satisfied.") ].

(** [True] when every check is satisfied, else the reason of the first one
    that is not. *)
Definition first_failure (reports : list (bool * string)) : py_value :=
  match find (fun r => negb (fst r)) reports with
  | Some r => PyStr (snd r)
  | None => PyBool true
  end.

(** The sum over the rows of the squared difference of label and prediction. *)
Definition sum_of_squared_differences (labels y_pred : vector) : float :=
  fold_left (fun acc r => (acc + (fst r - snd r) * (fst r - snd r))%float)
            (combine labels y_pred) 0%float.

(** The rows in which the squared difference is a number. *)
Definition complete_rows (labels y_pred : vector) : list (float * float) :=
  filter (fun r => negb (is_nan ((fst r - snd r) * (fst r - snd r))%float))
         (combine labels y_pred).

(** The same sum over integers, without bound. *)
Definition sum_of_squared_differences_Z (labels y_pred : list Z) : Z :=
  fold_left (fun acc r => (acc + (fst r - snd r) * (fst r - snd r))%Z)
            (combine labels y_pred) 0%Z.

(** The row of the table of missing values for one column of a frame of
    [n] rows: its label, the number of its missing cells and 100 times that
    number divided by [n]. *)
Definition missing_row_of (n : nat) (c : string * list cell) : missing_row :=
  let count := length (filter isna (snd c)) in
  mkMissing (fst c) count (100 * (float_of_nat count / float_of_nat n))%float.

(** Entry [(i, j)] of a matrix. *)
Definition entry (a : matrix) (i j : nat) : option float :=
  match nth_error a i with
  | Some row => nth_error row j
  | None => None
  end.

(** A model is of class [c] and of none of the other classes tested. *)
Definition typed (c : py_class) (m : model) : Prop :=
  forall c', instance_of m c' = py_class_eqb c c'.

(** ** Library behaviour, for the closed examples *)

(** A DataFrame of numeric columns. *)
Definition frame_of (n : nat) (cols : list (string * vector)) : DataFrame :=
  mkFrame n (map (fun c => (fst c, map Num (snd c))) cols).

(** The numbers of a column ([None] when a cell is not numeric); a missing
    cell of a numeric column is NaN. *)
Fixpoint column_floats (col : list cell) : option vector :=
  match col with
  | [] => Some []
  | Num x :: r => option_map (cons x) (column_floats r)
  | NoneCell :: r => option_map (cons nan) (column_floats r)
  | Str _ :: _ => None
  end.

(** [np.maximum] and [np.minimum]: NaN wins. *)
Definition np_maximum (x y : float) : float :=
  if is_nan x then x else if is_nan y then y else if (x <? y)%float then y else x.
Definition np_minimum (x y : float) : float :=
  if is_nan x then x else if is_nan y then y else if (y <? x)%float then y else x.

(** statsmodels' test for a column that already is a non-zero constant:
    [np.ptp(s) == 0.0 and np.any(s != 0.0)]. *)
Definition is_nonzero_const (col : list cell) : bool :=
  match column_floats col with
  | Some (x :: xs) =>
      (fold_left np_maximum xs x - fold_left np_minimum xs x =? 0)%float
      && existsb (fun v => negb (v =? 0)%float) (x :: xs)
  | _ => false
  end.

(** [sm.add_constant(df, has_constant=...)]: a column ["const"] of ones is
    put in front; with ['skip'] the frame is left as it is when it already
    has a constant column. *)
Definition sm_add_constant (mode : has_constant) (df : DataFrame) : DataFrame :=
  let with_const :=
    mkFrame (nrows df) (("const", repeat (Num 1%float) (nrows df)) :: columns df) in
  match mode with
  | HasConstantAdd => with_const
  | HasConstantSkip =>
      if existsb (fun c => is_nonzero_const (snd c)) (columns df) then df else with_const
  end.

(** Pearson's coefficient of two columns as pandas computes it (one pass over
    the rows where both values are finite, Welford's update of the means and
    of the sums of squares); NaN when the divisor is zero. *)
Record welford := mkWelford {
  nobs : nat;
  meanx : float;
  meany : float;
  ssqdm_x : float;
  ssqdm_y : float;
  covxy : float
}.

Definition welford_step (s : welford) (v : float * float) : welford :=
  let vx := fst v in
  let vy := snd v in
  if is_finite vx && is_finite vy then
    let n := S (nobs s) in
    let dx := (vx - meanx s)%float in
    let dy := (vy - meany s)%float in
    let mx := (meanx s + 1 / float_of_nat n * dx)%float in
    let my := (meany s + 1 / float_of_nat n * dy)%float in
    mkWelford n mx my
              (ssqdm_x s + (vx - mx) * dx)%float
              (ssqdm_y s + (vy - my) * dy)%float
              (covxy s + (vx - mx) * dy)%float
  else s.

Definition pearson (xs ys : vector) : float :=
  let s := fold_left welford_step (combine xs ys) (mkWelford 0 0 0 0 0 0) in
  if Nat.ltb (nobs s) 1 then nan
  else
    let divisor := PrimFloat.sqrt (ssqdm_x s * ssqdm_y s) in
    if (divisor =? 0)%float then nan
    else
      let val := (covxy s / divisor)%float in
      if (1 <? val)%float then 1%float
      else if (val <? -1)%float then (-1)%float
      else val.

Fixpoint all_columns (cols : list (string * list cell)) : option (list vector) :=
  match cols with
  | [] => Some []
  | c :: r =>
      match column_floats (snd c), all_columns r with
      | Some v, Some vs => Some (v :: vs)
      | _, _ => None
      end
  end.

(** [DataFrame.corr()]: the matrix of the coefficients of every pair of
    columns; entry [(i, j)] is computed once, from the column of the larger
    index against the other. *)
Definition pandas_corr (df : DataFrame) : answer matrix :=
  match all_columns (columns df) with
  | None => Fails "ValueError: could not convert string to float"
  | Some vs =>
      Ok (map (fun i =>
                 map (fun j =>
                        if Nat.leb j i
                        then pearson (nth i vs []) (nth j vs [])
                        else pearson (nth j vs []) (nth i vs []))
                     (seq 0 (length vs)))
              (seq 0 (length vs)))
  end.

(** Stand-ins for the remaining calls, as a test would patch them. *)
Definition mock_show (f : figure) : answer unit := Ok tt.

Definition mock_normal_ad (ad2 p_value : float) (residuals : vector)
  : answer (float * float) := Ok (ad2, p_value).

Definition mock_r2_score (r : float) (y_true y_pred : vector) : answer float := Ok r.

Definition mock_independence (autocorrelation : option string) (dw_value : float)
    (m : model) (X : DataFrame) (y : vector) (plot : bool) : M (option string * float) :=
  fun w => (Returns (autocorrelation, dw_value),
            w ++ [EvCall "independence_of_errors_assumption"]).

Definition mock_equal_variance (dist_type : string) (p_value : float)
    (m : model) (X : DataFrame) (y : vector) (t : float) (plot : bool)
  : M (string * float) :=
  fun w => (Returns (dist_type, p_value), w ++ [EvCall "equal_variance_assumption"]).

Definition mock_handler (name : string)
    (m : model) (X : DataFrame) (y : vector) (t : float) : M py_value :=
  fun w => (Returns (PyStr name), w ++ [EvCall name]).

(** A fitted model of class [c] that predicts [y_pred] whatever the rows, a
    model of class [c] whose [predict] raises (it was never fitted), and an
    object without a [predict] method. *)
Definition fitted (c : py_class) (y_pred : vector) (pvalue : float) : model :=
  mkModel (py_class_eqb c) (Some (fun _ => Ok y_pred)) pvalue.

Definition unfitted (c : py_class) : model :=
  mkModel (py_class_eqb c) (Some (fun _ => Fails "NotFittedError")) nan.

Definition no_predict : model :=
  mkModel (fun _ => false) None nan.

Definition X3 : DataFrame :=
  frame_of 3 [("Age", [21; 34; 45]%float); ("BMI", [19.5; 24; 31]%float)].

(** A fitted classifier of class [c] that predicts [y_pred] whatever the
    rows, a frame of one row and one of eight rows, with labels in 0 and 1
    and predictions for the eight rows. *)
Definition fitted_classifier (c : py_class) (y_pred : list Z) : classifier :=
  mkClassifier (py_class_eqb c) (Some (fun _ => Ok y_pred)).

Definition X1 : DataFrame :=
  frame_of 1 [("Age", [21]%float); ("BMI", [19.5]%float)].

Definition X8 : DataFrame :=
  frame_of 8 [("Age", [21; 34; 45; 29; 38; 52; 41; 33]%float);
              ("BMI", [19.5; 24; 31; 22.5; 27; 33.5; 26; 21]%float)].

Definition labels8 : vector := [0; 1; 0; 1; 0; 1; 0; 0]%float.

Definition predictions8 : vector := [0.1; 0.7; 0.3; 0.1; 0.3; 0.8; 0.9; 0.7]%float.

Definition X3_duplicated : DataFrame :=
  frame_of 3 [("BMI", [19.5; 24; 31]%float); ("BMI copy", [19.5; 24; 31]%float)].

Definition X3_duplicated_constant : DataFrame :=
  frame_of 3 [("a", [1; 1; 1]%float); ("b", [1; 1; 1]%float)].

(** A results wrapper whose F-test does not reject (p-value 0.5) and one
    whose F-test does (p-value 0.001); both predict 1, 2, 4. *)
Definition ols_not_significant : model :=
  fitted RegressionResultsWrapper [1; 2; 4]%float 0.5%float.

Definition ols_significant : model :=
  fitted RegressionResultsWrapper [1; 2; 4]%float 0.001%float.

(** The library calls of one run of [are_assumptions_satisfied_linear] on
    [X3], with the stand-ins above: the five checks, in order. *)
Definition log_of_five_checks : log :=
  [ EvPredict (sm_add_constant HasConstantSkip X3);
    EvCall "independence_of_errors_assumption";
    EvPredict (sm_add_constant HasConstantSkip X3);
    EvNormalAD [0; 0; -1]%float;
    EvCall "equal_variance_assumption";
    EvCorr X3 ].

(** One fitted model of each class the dispatcher knows. *)
Definition ridge_model : model := fitted Ridge [1; 2; 4]%float nan.
Definition lasso_model : model := fitted Lasso [1; 2; 4]%float nan.
Definition linear_model : model := fitted LinearRegression [1; 2; 4]%float nan.
Definition logistic_model : model := fitted LogisticRegression [1; 0; 1]%float nan.

(** [check_model_assumptions] with the two handlers it does not define
    patched by stand-ins that return their own name. *)
Definition patched_check_model_assumptions
  : model -> DataFrame -> vector -> float -> M py_value :=
  check_model_assumptions sm_add_constant (mock_normal_ad 0.2 0.6) pandas_corr
    mock_show (mock_independence None 2) (mock_equal_variance "equal" 0.3)
    (mock_handler "are_assumptions_satisfied_ridge_lasso")
    (mock_handler "are_assumptions_satisfied_logistic").

(** The five checks of a linear model run one after the other on the same
    inputs, none looking at what another found; their five results. *)
Definition run_five_checks
    (add_constant : has_constant -> DataFrame -> DataFrame)
    (normal_ad : vector -> answer (float * float))
    (corr : DataFrame -> answer matrix) (show : figure -> answer unit)
    (independence_of_errors_assumption :
       model -> DataFrame -> vector -> bool -> M (option string * float))
    (equal_variance_assumption :
       model -> DataFrame -> vector -> float -> bool -> M (string * float))
    (m : model) (features : DataFrame) (labels : vector) (p_value_thresh : float)
  : M (list (bool * string)) :=
  let x_with_const := add_constant HasConstantSkip features in
  lin <- linear_assumption show m x_with_const labels p_value_thresh false ;;
  ind <- independence_of_errors_assumption m x_with_const labels false ;;
  nor <- normality_of_errors_assumption normal_ad show m x_with_const labels
           p_value_thresh false ;;
  equ <- equal_variance_assumption m x_with_const labels p_value_thresh false ;;
  col <- perfect_collinearity_assumption corr show features false ;;
  ret (assumption_reports lin ind nor equ col).

(** A frame of four rows with one missing age and two missing cities. *)
Definition patients : DataFrame :=
  mkFrame 4 [ ("Age", [Num 21; Num nan; Num 45; Num 30]%float);
              ("City", [Str "Novi Sad"; NoneCell; NoneCell; Str "Beograd"]);
              ("BMI", [Num 19.5; Num 24; Num 31; Num 22]%float) ].

(** Features with a column of text, which [DataFrame.corr] rejects. *)
Definition X3_with_text : DataFrame :=
  mkFrame 3 [ ("Age", [Num 21; Num 34; Num 45]%float);
              ("Blood group", [Str "A"; Str "0"; Str "AB"]) ].

(** ** The remaining analysis functions of helper.py *)

(** [data_frame[name]]: the columns of that label (one, unless the label is
    duplicated in the frame); KeyError when there is none. *)
Definition getitem (df : DataFrame) (name : string) : answer (list (list cell)) :=
  match filter (fun c => String.eqb (fst c) name) (columns df) with
  | [] => Fails ("KeyError: " ++ name)
  | cols => Ok (map snd cols)
  end.

Definition is_number (c : cell) : bool :=
  match c with Num _ => true | _ => false end.

Definition is_text (c : cell) : bool :=
  match c with Str _ => true | _ => false end.

(** What pandas holds for a column: a column of numbers, some of which may
    be missing, is numeric and its missing entries are NaN; a column with
    text, or without any number, keeps its objects, None included. *)
Definition stored (col : list cell) : list cell :=
  if existsb is_text col || negb (existsb is_number col) then col
  else map (fun c => match c with NoneCell => Num nan | _ => c end) col.

(** [column.values], row by row: one cell per row for a single column, an
    array of cells per row when the label is duplicated. *)
Fixpoint row_values (cols : list (list cell)) : list (list cell) :=
  match cols with
  | [] => []
  | [c] => map (fun x => [x]) (stored c)
  | c :: rest => zip_with cons (stored c) (row_values rest)
  end.

(** The number in a cell of a numeric column. *)
Definition as_number (c : cell) : float :=
  match c with Num x => x | _ => nan end.

(** The [if]/[elif] chain of [bmi_histogram] on one number. *)
Definition bmi_band (bmi : float) : string :=
  if (bmi <? 18.5)%float then "Underweight"
  else if (bmi <? 25)%float then "Healthy Weight"
  else if (bmi <? 30)%float then "Overweight"
  else "Obesity".

(** The chain on one element of [column.values]: text and None cannot be
    compared with a number, and an array has no truth value. *)
Definition bmi_category (bmi : list cell) : answer string :=
  match bmi with
  | [Num x] => Ok (bmi_band x)
  | [_] => Fails "TypeError: '<' not supported"
  | _ =>
      if forallb is_number bmi
      then Fails "ValueError: The truth value of an array is ambiguous"
      else Fails "TypeError: '<' not supported"
  end.

(** [frequency[key] += 1] on a dict that has the key. *)
Fixpoint increment (key : string) (frequency : list (string * nat))
  : list (string * nat) :=
  match frequency with
  | [] => []
  | (k, v) :: rest =>
      if String.eqb k key then (k, S v) :: rest
      else (k, v) :: increment key rest
  end.

Definition bmi_frequency0 : list (string * nat) :=
  [("Underweight", 0); ("Healthy Weight", 0); ("Overweight", 0); ("Obesity", 0)].

(** The loop [for bmi in column.values]. *)
Fixpoint bmi_loop (values : list (list cell)) (frequency : list (string * nat))
  : answer (list (string * nat)) :=
  match values with
  | [] => Ok frequency
  | bmi :: rest =>
      match bmi_category bmi with
      | Ok key => bmi_loop rest (increment key frequency)
      | Fails what => Fails what
      end
  end.

(** A list comprehension whose element can raise: left to right. *)
Fixpoint for_each {A B} (f : A -> M B) (l : list A) : M (list B) :=
  match l with
  | [] => ret []
  | a :: rest =>
      b <- f a ;;
      bs <- for_each f rest ;;
      ret (b :: bs)
  end.

Section Analysis.

(** matplotlib's bar chart, scikit-learn's Lasso, statsmodels. *)
Variable bar : list string -> list nat -> answer unit.
Variable lasso_fit :
  float -> DataFrame -> vector -> answer (DataFrame -> answer vector).
Variable add_constant : has_constant -> DataFrame -> DataFrame.
Variable r2_score : vector -> vector -> answer float.
Variable variance_inflation_factor : DataFrame -> nat -> answer float.

(** [print] and the text of a float in an f-string. *)
Variable print : string -> M unit.
Variable str_of_float : float -> string.

(** Functions the module calls and does not define. *)
Variable get_rmse : model -> DataFrame -> vector -> M float.
Variable get_rsquared_adj : model -> DataFrame -> vector -> M float.

Definition bmi_histogram (data_frame : DataFrame) : M unit :=
  column <- lift (getitem data_frame "BMI") ;;
  frequency <- lift (bmi_loop (row_values column) bmi_frequency0) ;;
  let group_names := map fst frequency in
  let group_counts := map snd frequency in
  call (EvCall "plt.bar") (bar group_names group_counts).

(** A Lasso object has no [f_pvalue]; the field is read on results wrappers
    only. *)
Definition get_lasso_model (features : DataFrame) (labels : vector) : M model :=
  fitted_predict <- call (EvCall "Lasso.fit") (lasso_fit 0.01 features labels) ;;
  let lasso_model := mkModel (py_class_eqb Lasso) (Some fitted_predict) nan in
  ret lasso_model.

Definition evaluate_model (m : model) (name : string) (features : DataFrame)
    (labels : vector) : M unit :=
  sse <- get_sse add_constant m features labels ;;
  rmse <- get_rmse m features labels ;;
  rsquared <- get_rsquared add_constant r2_score m features labels ;;
  rsquared_adj <- get_rsquared_adj m features labels ;;
  print (name ++ " Model:") ;;;
  print ("SSE: " ++ str_of_float sse) ;;;
  print ("RMSE: " ++ str_of_float rmse) ;;;
  print ("R²: " ++ str_of_float rsquared) ;;;
  print ("R² adj : " ++ str_of_float rsquared_adj ++ String (Ascii.ascii_of_nat 10) "").

Definition calculate_vif (x_train : DataFrame) : M (list (string * float)) :=
  let x_train_with_const := add_constant HasConstantAdd x_train in
  let variable := map fst (columns x_train_with_const) in
  vif <- for_each
           (fun i => call (EvCall "variance_inflation_factor")
                          (variance_inflation_factor x_train_with_const i))
           (seq 0 (length (columns x_train_with_const))) ;;
  ret (combine variable vif).

End Analysis.

(** Stand-ins for the calls of these functions. *)
Definition mock_bar (names : list string) (counts : list nat) : answer unit := Ok tt.

Definition mock_print (line : string) : M unit :=
  fun w => (Returns tt, w ++ [EvCall ("print " ++ line)]).

Definition mock_metric (value : float) (m : model) (X : DataFrame) (y : vector)
  : M float := ret value.

Definition mock_lasso_fit (y_pred : vector) (alpha : float) (X : DataFrame)
    (y : vector) : answer (DataFrame -> answer vector) :=
  Ok (fun _ => Ok y_pred).

Definition mock_vif (X : DataFrame) (i : nat) : answer float :=
  Ok (float_of_nat (S i)).

(** The same column read as text, with an entry that is no number. *)
Definition bmi_frame_with_text : DataFrame :=
  mkFrame 3 [("BMI", [Num 17; Str "n/a"; Num 30]%float)].

(** A column of numbers in which an entry was never made (None). *)
Definition bmi_frame_with_none : DataFrame :=
  mkFrame 3 [("BMI", [Num 17; NoneCell; Num 30]%float)].

(** How many of the numbers fall in a band of [bmi_histogram]. *)
Definition count_band (band : string) (xs : vector) : nat :=
  length (filter (fun x => String.eqb (bmi_band x) band) xs).


(** A model object of a class that derives from several of the classes
    tested. *)
Definition instance_of_all (cs : list py_class) (y_pred : vector) : model :=
  mkModel (fun c => existsb (py_class_eqb c) cs) (Some (fun _ => Ok y_pred)) nan.

(** A binary64 value that is a number and not an infinity, and one whose
    sign bit is not set (NaN included, negative zero excluded), on the
    representation of the value. *)
Definition sf_finite (a : spec_float) : Prop :=
  match a with S754_zero _ | S754_finite _ _ _ => True | _ => False end.

Definition sf_nonneg (a : spec_float) : Prop :=
  match a with
  | S754_zero s | S754_infinity s | S754_finite s _ _ => s = false
  | S754_nan => True
  end.

(** A property of all eight partial sums. *)
Definition partial_sums_all (P : float -> Prop) (r : partial_sums) : Prop :=
  P (acc0 r) /\ P (acc1 r) /\ P (acc2 r) /\ P (acc3 r) /\
  P (acc4 r) /\ P (acc5 r) /\ P (acc6 r) /\ P (acc7 r).

(** Two features that mirror each other. *)
Definition X3_mirrored : DataFrame :=
  frame_of 3 [("BMI", [19.5; 24; 31]%float); ("BMI negated", [-19.5; -24; -31]%float)].

(** * Properties *)

(** ** Running a computation step by step *)

Lemma bind_returns {A B} (m : M A) (k : A -> M B) (w w' : log) (a : A) :
  m w = (Returns a, w') -> bind m k w = k a w'.
Proof. unfold bind. intros ->. reflexivity. Qed.

Lemma bind_raises {A B} (m : M A) (k : A -> M B) (w w' : log) (e : exn) :
  m w = (Raises e, w') -> bind m k w = (Raises e, w').
Proof. unfold bind. intros ->. reflexivity. Qed.

Lemma bind_assoc {A B C} (m : M A) (k : A -> M B) (h : B -> M C) (w : log) :
  bind (bind m k) h w = bind m (fun a => bind (k a) h) w.
Proof. unfold bind. destruct (m w) as [[a|e] w']; reflexivity. Qed.

Lemma bind_cong {A B} (m : M A) (k k' : A -> M B) (w : log) :
  (forall a w', k a w' = k' a w') -> bind m k w = bind m k' w.
Proof. intro H. unfold bind. destruct (m w) as [[a|e] w']; [apply H | reflexivity]. Qed.

Lemma predict_returns (m : model) (X : DataFrame) (f : DataFrame -> answer vector)
    (y_pred : vector) (w : log) :
  predict_method m = Some f -> f X = Ok y_pred ->
  predict m X w = (Returns y_pred, w ++ [EvPredict X]).
Proof. unfold predict, call. intros -> ->. reflexivity. Qed.

(** ** Lists *)

Lemma zip_with_map_r {A B C} (g : A -> B -> C) (f : A -> B) (l : list A) :
  zip_with g l (map f l) = map (fun a => g a (f a)) l.
Proof. induction l as [|a l IH]; simpl; [reflexivity | now rewrite IH]. Qed.

Lemma zip_with_combine {A B C} (f : A -> B -> C) (xs : list A) (ys : list B) :
  zip_with f xs ys = map (fun r => f (fst r) (snd r)) (combine xs ys).
Proof.
  revert ys. induction xs as [|x xs IH]; intros [|y ys]; simpl; try reflexivity.
  now rewrite IH.
Qed.

Lemma fold_left_map {A B C} (f : A -> B -> A) (g : C -> B) (l : list C) (a : A) :
  fold_left f (map g l) a = fold_left (fun acc c => f acc (g c)) l a.
Proof. revert a. induction l as [|c l IH]; intro a; simpl; [reflexivity | apply IH]. Qed.

(** ** Comparisons of floats *)

Lemma SFcompare_antisym (a b : spec_float) :
  SFcompare b a = option_map CompOpp (SFcompare a b).
Proof.
  destruct a as [sa|sa| |sa ma ea], b as [sb|sb| |sb mb eb]; simpl;
    try destruct sa; try destruct sb; try reflexivity;
    rewrite (Z.compare_antisym eb ea);
    destruct (eb ?= ea)%Z; simpl; try reflexivity;
    change (PosDef.Pos.compare_cont Eq mb ma) with (Pos.compare mb ma);
    change (PosDef.Pos.compare_cont Eq ma mb) with (Pos.compare ma mb);
    rewrite (Pos.compare_antisym ma mb); destruct (ma ?= mb)%positive; reflexivity.
Qed.

Lemma is_nan_false_compare (x y : float) :
  is_nan x = false -> is_nan y = false ->
  exists c, SFcompare (Prim2SF x) (Prim2SF y) = Some c.
Proof.
  unfold is_nan. rewrite !FloatAxioms.eqb_spec. unfold SFeqb.
  destruct (Prim2SF x) as [sa|sa| |sa ma ea], (Prim2SF y) as [sb|sb| |sb mb eb];
    simpl; intros Hx Hy; try discriminate; eexists; reflexivity.
Qed.

(** Away from NaN, [x < y] is the negation of [x >= y]. *)
Lemma ltb_negb_geb (x y : float) :
  is_nan x = false -> is_nan y = false ->
  (x <? y)%float = negb (geb x y).
Proof.
  intros Hx Hy. unfold geb.
  rewrite FloatAxioms.ltb_spec, FloatAxioms.leb_spec. unfold SFltb, SFleb.
  rewrite (SFcompare_antisym (Prim2SF y) (Prim2SF x)).
  destruct (is_nan_false_compare y x Hy Hx) as [c ->]. destruct c; reflexivity.
Qed.

Lemma SFltb_abs (a : spec_float) (mt : positive) (et : Z) :
  SFltb (S754_finite false mt et) (SFabs a) =
  SFltb (S754_finite false mt et) a || SFltb a (S754_finite true mt et).
Proof.
  unfold SFltb.
  destruct a as [s|s| |s m e]; simpl; try destruct s; try reflexivity.
  - rewrite (Z.compare_antisym et e).
    destruct (et ?= e)%Z; simpl; try reflexivity.
    change (PosDef.Pos.compare_cont Eq m mt) with (Pos.compare m mt).
    change (PosDef.Pos.compare_cont Eq mt m) with (Pos.compare mt m).
    rewrite (Pos.compare_antisym mt m).
    destruct (mt ?= m)%positive; reflexivity.
  - destruct (et ?= e)%Z; try reflexivity.
    destruct (PosDef.Pos.compare_cont _ _ _); reflexivity.
Qed.

Lemma Prim2SF_threshold :
  Prim2SF 0.999 = S754_finite false 8998192055486251 (-53).
Proof. vm_compute. reflexivity. Qed.

Lemma Prim2SF_opp_threshold :
  Prim2SF (-0.999) = S754_finite true 8998192055486251 (-53).
Proof. vm_compute. reflexivity. Qed.

(** The two tests of [perfect_collinearity_assumption] together are the test
    of the absolute value. *)
Lemma abs_exceeds_threshold (x : float) :
  gtb (abs x) 0.999 = gtb x 0.999 || (x <? -0.999)%float.
Proof.
  unfold gtb.
  rewrite (FloatAxioms.ltb_spec 0.999 (abs x)), (FloatAxioms.ltb_spec 0.999 x),
    (FloatAxioms.ltb_spec x (-0.999)), FloatAxioms.abs_spec.
  pose proof Prim2SF_threshold as H1. pose proof Prim2SF_opp_threshold as H2.
  generalize dependent (Prim2SF 0.999). generalize dependent (Prim2SF (-0.999)).
  intros ? -> ? ->.
  apply SFltb_abs.
Qed.

Lemma SFmul_comm (prec emax : Z) (a b : spec_float) :
  SFmul prec emax a b = SFmul prec emax b a.
Proof.
  destruct a as [sa|sa| |sa ma ea], b as [sb|sb| |sb mb eb]; simpl; try reflexivity;
    try (rewrite (xorb_comm sa sb); reflexivity).
  rewrite (xorb_comm sa sb), (Pos.mul_comm ma mb), (Z.add_comm ea eb). reflexivity.
Qed.

Lemma float_mul_comm (x y : float) : (x * y)%float = (y * x)%float.
Proof. apply Prim2SF_inj. rewrite !FloatAxioms.mul_spec. apply SFmul_comm. Qed.

(** ** Missing values *)

Lemma count_nonzero_iff_some_missing (col : list cell) :
  negb (Nat.eqb (length (filter isna col)) 0) = existsb isna col.
Proof.
  induction col as [|c col IH]; simpl; [reflexivity|].
  destruct (isna c); simpl; [reflexivity | exact IH].
Qed.

Lemma existsb_isna_false (col : list cell) :
  (forall c, In c col -> isna c = false) -> existsb isna col = false.
Proof.
  induction col as [|c col IH]; intro H; simpl; [reflexivity|].
  rewrite (H c (or_introl eq_refl)). apply IH. intros c' Hc'. apply H. now right.
Qed.

(** C10. The table [check_for_missing_values] returns has one row for each
    column of the frame with at least one missing cell, in the frame's order
    and for no other column; the row gives the column's label, the number of
    its missing cells and 100 times that number divided by the number of rows.
    For a frame with no missing cell the table is empty. *)
Theorem check_for_missing_values_table (df : DataFrame) :
  check_for_missing_values df =
    map (missing_row_of (nrows df))
        (filter (fun c => existsb isna (snd c)) (columns df))
  /\ ((forall c cell, In c (columns df) -> In cell (snd c) -> isna cell = false) ->
      check_for_missing_values df = []).
Proof.
  assert (E : check_for_missing_values df =
              map (missing_row_of (nrows df))
                  (filter (fun c => existsb isna (snd c)) (columns df))).
  { unfold check_for_missing_values, isna_sum.
    rewrite zip_with_map_r.
    generalize (nrows df) as n. intro n.
    induction (columns df) as [|c cols IH]; simpl; [reflexivity|].
    rewrite count_nonzero_iff_some_missing.
    destruct (existsb isna (snd c)); simpl; [|exact IH].
    rewrite IH. unfold missing_row_of. simpl.
    rewrite (float_mul_comm 100). reflexivity. }
  split; [exact E|].
  rewrite E. clear E. generalize (columns df) as cols.
  induction cols as [|c cols IH]; intro H; simpl; [reflexivity|].
  rewrite (existsb_isna_false (snd c)).
  - apply IH. intros c' x Hc'. apply H. now right.
  - intros x Hx. apply (H c x); [now left | exact Hx].
Qed.

Lemma check_for_missing_values_table_witness :
  check_for_missing_values patients
  = [mkMissing "Age" 1 25%float; mkMissing "City" 2 50%float].
Proof.
  rewrite (proj1 (check_for_missing_values_table patients)). reflexivity.
Defined.

(** ** Sums in binary64 *)

Lemma binary_round_aux_sign (s : bool) (m e : Z) (l : location) :
  match binary_round_aux prec emax s m e l with
  | S754_zero s' | S754_infinity s' | S754_finite s' _ _ => s' = s
  | S754_nan => True
  end.
Proof.
  unfold binary_round_aux.
  destruct (shr_fexp prec emax m e l) as [mrs' e'].
  destruct (shr_fexp prec emax _ e' loc_Exact) as [mrs'' e''].
  destruct (shr_m mrs''); try exact I; try reflexivity.
  destruct (e'' <=? emax - prec)%Z; reflexivity.
Qed.

Lemma binary_round_nonneg (m : positive) (e : Z) :
  sf_nonneg (binary_round prec emax false m e).
Proof.
  unfold binary_round.
  destruct (shl_align m e _) as [mz ez].
  pose proof (binary_round_aux_sign false (Z.pos mz) ez loc_Exact) as H.
  destruct (binary_round_aux prec emax false (Z.pos mz) ez loc_Exact); simpl; auto.
Qed.

Lemma SFmul_self_nonneg (a : spec_float) : sf_nonneg (SFmul prec emax a a).
Proof.
  destruct a as [s|s| |s m e]; simpl; try exact I; try (destruct s; reflexivity).
  pose proof (binary_round_aux_sign (xorb s s) (Z.pos (m * m)) (e + e) loc_Exact) as H.
  destruct (binary_round_aux prec emax (xorb s s) (Z.pos (m * m)) (e + e) loc_Exact);
    simpl; try exact I; rewrite H; destruct s; reflexivity.
Qed.

Lemma SFadd_nonneg (a b : spec_float) :
  sf_nonneg a -> sf_nonneg b -> sf_nonneg (SFadd prec emax a b).
Proof.
  destruct a as [sa|sa| |sa ma ea], b as [sb|sb| |sb mb eb]; simpl;
    intros Ha Hb; subst; try exact I; try reflexivity.
  apply binary_round_nonneg.
Qed.

Lemma nonneg_not_negative (x : float) :
  sf_nonneg (Prim2SF x) -> (x <? 0)%float = false.
Proof.
  rewrite FloatAxioms.ltb_spec. change (Prim2SF 0) with (S754_zero false).
  unfold SFltb. destruct (Prim2SF x) as [s|s| |s m e]; simpl; intro H; subst; reflexivity.
Qed.

Lemma add_zero_l (x : float) : sf_nonneg (Prim2SF x) -> (0 + x)%float = x.
Proof.
  intro H. apply Prim2SF_inj. rewrite FloatAxioms.add_spec.
  change (Prim2SF 0) with (S754_zero false). unfold SF64add.
  destruct (Prim2SF x) as [s|s| |s m e]; simpl in *; subst; reflexivity.
Qed.

Lemma add_zero_r (x : float) : sf_nonneg (Prim2SF x) -> (x + 0)%float = x.
Proof.
  intro H. apply Prim2SF_inj. rewrite FloatAxioms.add_spec.
  change (Prim2SF 0) with (S754_zero false). unfold SF64add.
  destruct (Prim2SF x) as [s|s| |s m e]; simpl in *; subst; reflexivity.
Qed.

Lemma add_nonneg (x y : float) :
  sf_nonneg (Prim2SF x) -> sf_nonneg (Prim2SF y) -> sf_nonneg (Prim2SF (x + y)).
Proof. intros Hx Hy. rewrite FloatAxioms.add_spec. now apply SFadd_nonneg. Qed.

Lemma square_nonneg (diff : vector) :
  Forall (fun t => sf_nonneg (Prim2SF t)) (square diff).
Proof.
  unfold square. apply Forall_map, Forall_forall. intros x _.
  rewrite FloatAxioms.mul_spec. apply SFmul_self_nonneg.
Qed.

Lemma firstn_Forall {A} (P : A -> Prop) (n : nat) (l : list A) :
  Forall P l -> Forall P (firstn n l).
Proof.
  intro H. revert n. induction H as [|x l Hx _ IH]; intros [|n]; cbn [firstn];
    constructor; auto.
Qed.

Lemma skipn_Forall {A} (P : A -> Prop) (n : nat) (l : list A) :
  Forall P l -> Forall P (skipn n l).
Proof.
  intro H. revert n. induction H as [|x l Hx Hl IH]; intros [|n]; cbn [skipn];
    try constructor; auto.
Qed.

(** What every entry has, and addition keeps, the sum has. *)
Section SumsPreserve.

Variable P : float -> Prop.
Hypothesis P_zero : P 0%float.
Hypothesis P_add : forall x y, P x -> P y -> P (x + y)%float.

Lemma fold_left_add_preserves (a : vector) :
  forall acc, P acc -> Forall P a -> P (fold_left PrimFloat.add a acc).
Proof.
  induction a as [|x a IH]; intros acc Hacc Ha; [exact Hacc|].
  inversion Ha; subst. cbn [fold_left]. apply IH; auto.
Qed.

Lemma add_blocks_preserves (n : nat) :
  forall (a : vector) (r : partial_sums),
    length a <= n -> partial_sums_all P r -> Forall P a ->
    partial_sums_all P (fst (add_blocks r a)) /\ Forall P (snd (add_blocks r a)).
Proof.
  induction n as [|n IH]; intros a r Hn Hr Ha.
  - destruct a; [split; assumption | cbn [length] in Hn; lia].
  - destruct a as [|a0 [|a1 [|a2 [|a3 [|a4 [|a5 [|a6 [|a7 rest]]]]]]]];
      try (split; assumption).
    cbn [add_blocks].
    repeat match goal with
           | H : Forall _ (_ :: _) |- _ => inversion H; clear H; subst
           end.
    destruct Hr as (Hr0 & Hr1 & Hr2 & Hr3 & Hr4 & Hr5 & Hr6 & Hr7).
    apply IH.
    + cbn [length] in Hn. lia.
    + unfold partial_sums_all. cbn [acc0 acc1 acc2 acc3 acc4 acc5 acc6 acc7].
      repeat split; apply P_add; assumption.
    + assumption.
Qed.

Lemma block_sum_preserves (a : vector) : Forall P a -> P (block_sum a).
Proof.
  intro Ha. unfold block_sum.
  destruct a as [|a0 [|a1 [|a2 [|a3 [|a4 [|a5 [|a6 [|a7 rest]]]]]]]];
    try (apply fold_left_add_preserves; [exact P_zero | exact Ha]).
  repeat match goal with
         | H : Forall _ (_ :: _) |- _ => inversion H; clear H; subst
         end.
  match goal with
  | |- context [add_blocks ?r rest] =>
      pose proof (add_blocks_preserves (length rest) rest r (le_n _)) as Hb;
      destruct (add_blocks r rest) as [r' left_over]
  end.
  cbn [fst snd] in Hb.
  destruct Hb as [(Hr0 & Hr1 & Hr2 & Hr3 & Hr4 & Hr5 & Hr6 & Hr7) Hleft];
    [unfold partial_sums_all; cbn; repeat split; assumption | assumption |].
  apply fold_left_add_preserves; [|exact Hleft].
  repeat apply P_add; assumption.
Qed.

Lemma pairwise_sum_preserves (depth : nat) :
  forall a, Forall P a -> P (pairwise_sum depth a).
Proof.
  induction depth as [|depth IH]; intros a Ha; cbn [pairwise_sum];
    destruct (Nat.ltb (length a) 8);
    try (apply fold_left_add_preserves; [exact P_zero | exact Ha]);
    destruct (Nat.leb (length a) 128);
    try (apply block_sum_preserves; exact Ha).
  apply P_add; apply IH; [apply firstn_Forall | apply skipn_Forall]; exact Ha.
Qed.

Lemma np_sum_preserves (a : vector) :
  (forall x, In x a -> is_nan x = false -> P x) -> P (np_sum a).
Proof.
  intro Ha. unfold np_sum. apply P_add; [exact P_zero|].
  apply pairwise_sum_preserves, Forall_map, Forall_forall. intros x Hx.
  destruct (is_nan x) eqn:Hnan; [exact P_zero | now apply Ha].
Qed.

End SumsPreserve.

Lemma pairwise_sum_small (depth : nat) (a : vector) :
  length a < 8 -> pairwise_sum depth a = fold_left PrimFloat.add a 0%float.
Proof.
  intro H. apply Nat.ltb_lt in H. destruct depth; cbn [pairwise_sum]; now rewrite H.
Qed.

(** The bound on the number of cuts is never reached: any bound from the
    length of the array on gives the same sum. *)
Lemma pairwise_sum_depth (d1 : nat) :
  forall (d2 : nat) (a : vector),
    length a <= d1 -> length a <= d2 -> pairwise_sum d1 a = pairwise_sum d2 a.
Proof.
  induction d1 as [|d1 IH]; intros d2 a H1 H2.
  - rewrite !pairwise_sum_small by lia. reflexivity.
  - destruct d2 as [|d2]; [rewrite !pairwise_sum_small by lia; reflexivity|].
    cbn [pairwise_sum].
    destruct (Nat.ltb (length a) 8); [reflexivity|].
    destruct (Nat.leb (length a) 128) eqn:Hle; [reflexivity|].
    apply Nat.leb_gt in Hle.
    set (n2 := length a / 2 - (length a / 2) mod 8).
    assert (Hn2 : 0 < n2 < length a).
    { subst n2.
      pose proof (Nat.mod_upper_bound (length a / 2) 8 ltac:(discriminate)) as Hm.
      pose proof (Nat.div_mod_eq (length a) 2) as Hd.
      pose proof (Nat.mod_upper_bound (length a) 2 ltac:(discriminate)) as Hr.
      lia. }
    assert (Hf : length (firstn n2 a) < length a)
      by (rewrite length_firstn; lia).
    assert (Hs : length (skipn n2 a) < length a)
      by (rewrite length_skipn; lia).
    rewrite (IH d2 (firstn n2 a)), (IH d2 (skipn n2 a)) by lia.
    reflexivity.
Qed.

(** Entries that are NaN count for nothing in a sum of fewer than eight
    terms none of which is negative. *)
Lemma fold_left_add_skips (a : vector) :
  forall acc,
    sf_nonneg (Prim2SF acc) -> Forall (fun t => sf_nonneg (Prim2SF t)) a ->
    fold_left PrimFloat.add (map (fun x => if is_nan x then 0%float else x) a) acc =
    fold_left PrimFloat.add (filter (fun x => negb (is_nan x)) a) acc.
Proof.
  induction a as [|x a IH]; intros acc Hacc Ha; [reflexivity|].
  inversion Ha; subst. cbn [map filter fold_left].
  destruct (is_nan x); cbn [negb fold_left].
  - rewrite (add_zero_r acc Hacc). now apply IH.
  - apply IH; [now apply add_nonneg | assumption].
Qed.

Lemma np_sum_small (a : vector) :
  length a < 8 -> Forall (fun t => sf_nonneg (Prim2SF t)) a ->
  np_sum a = fold_left PrimFloat.add (filter (fun x => negb (is_nan x)) a) 0%float.
Proof.
  intros Hlen Ha. unfold np_sum.
  rewrite pairwise_sum_small by (now rewrite length_map).
  rewrite (fold_left_add_skips a 0%float) by (try exact Ha; reflexivity).
  apply add_zero_l.
  apply (fold_left_add_preserves (fun t => sf_nonneg (Prim2SF t)) add_nonneg).
  - reflexivity.
  - apply Forall_forall. intros x Hx. apply filter_In in Hx.
    exact (proj1 (Forall_forall _ _) Ha x (proj1 Hx)).
Qed.

(** Numpy's sum of an array without NaN whose entries are not negative. *)
Lemma np_sum_without_nan (a : vector) :
  Forall (fun t => is_nan t = false) a ->
  Forall (fun t => sf_nonneg (Prim2SF t)) a ->
  np_sum a = pairwise_sum (length a) a.
Proof.
  intros Hnan Ha. unfold np_sum.
  assert (Hmap : map (fun x => if is_nan x then 0%float else x) a = a).
  { clear Ha. induction Hnan as [|x a Hx _ IH]; [reflexivity|].
    cbn [map]. now rewrite Hx, IH. }
  rewrite Hmap. apply add_zero_l.
  now apply (pairwise_sum_preserves (fun t => sf_nonneg (Prim2SF t)) eq_refl add_nonneg).
Qed.

(** ** Arithmetic modulo 2^64 *)

Lemma wrap64_mod (a b : Z) :
  (a mod 2 ^ 64 = b mod 2 ^ 64)%Z -> wrap64 a = wrap64 b.
Proof.
  intro H. unfold wrap64.
  rewrite <- (Zplus_mod_idemp_l a), <- (Zplus_mod_idemp_l b), H. reflexivity.
Qed.

Lemma wrap64_eqm (a : Z) : (wrap64 a mod 2 ^ 64 = a mod 2 ^ 64)%Z.
Proof.
  unfold wrap64. rewrite Zminus_mod_idemp_l. f_equal. lia.
Qed.

Lemma wrap64_in_range (a : Z) : (- 2 ^ 63 <= a < 2 ^ 63)%Z -> wrap64 a = a.
Proof.
  intro H. unfold wrap64. rewrite Z.mod_small; lia.
Qed.

Lemma wrap64_add (a b c : Z) : wrap64 (wrap64 a + wrap64 (wrap64 (b - c) * wrap64 (b - c))) =
                              wrap64 (a + (b - c) * (b - c)).
Proof.
  apply wrap64_mod.
  rewrite Zplus_mod, !wrap64_eqm, Zmult_mod, !wrap64_eqm, <- Zmult_mod, <- Zplus_mod.
  reflexivity.
Qed.

Lemma np_sum_int64_square (labels y_pred : list Z) :
  np_sum_int64 (square_int64 (zip_with sub_int64 labels y_pred)) =
  wrap64 (sum_of_squared_differences_Z labels y_pred).
Proof.
  unfold np_sum_int64, square_int64, sum_of_squared_differences_Z, sub_int64.
  change 0%Z with (wrap64 0) at 1. generalize 0%Z as acc. revert y_pred.
  induction labels as [|l labels IH]; intros [|p y_pred] acc; try reflexivity.
  cbn [zip_with map combine fold_left fst snd].
  rewrite wrap64_add. apply IH.
Qed.

(** ** Sum of squared errors and R² *)

Lemma elementwise_same_length (f : float -> float -> float) (a b : vector) :
  length a = length b -> elementwise f a b = Ok (zip_with f a b).
Proof. unfold elementwise. intros ->. now rewrite Nat.eqb_refl. Qed.

Lemma elementwise_int64_same_length (f : Z -> Z -> Z) (a b : list Z) :
  length a = length b -> elementwise_int64 f a b = Ok (zip_with f a b).
Proof. unfold elementwise_int64. intros ->. now rewrite Nat.eqb_refl. Qed.

Lemma zip_with_length {A B C} (f : A -> B -> C) (xs : list A) (ys : list B) :
  length xs = length ys -> length (zip_with f xs ys) = length xs.
Proof.
  revert ys. induction xs as [|x xs IH]; intros [|y ys] H; try discriminate;
    [reflexivity|]. cbn [zip_with length]. f_equal. apply IH. now injection H.
Qed.

Lemma get_sse_returns
    (add_constant : has_constant -> DataFrame -> DataFrame)
    (m : model) (features : DataFrame) (labels : vector)
    (f : DataFrame -> answer vector) (y_pred : vector) (w : log) :
  let X := if isinstance m [RegressionResultsWrapper]
           then add_constant HasConstantAdd features else features in
  predict_method m = Some f -> f X = Ok y_pred -> length labels = length y_pred ->
  get_sse add_constant m features labels w =
    (Returns (np_sum (square (zip_with PrimFloat.sub labels y_pred))),
     w ++ [EvPredict X]).
Proof.
  intros X Hf Hp Hlen. unfold get_sse, hasattr_predict. rewrite Hf. fold X.
  rewrite (bind_returns _ _ _ _ _ (predict_returns m X f y_pred w Hf Hp)).
  unfold bind, lift, ret. rewrite (elementwise_same_length _ _ _ Hlen). reflexivity.
Qed.

Lemma get_sse_int64_returns
    (add_constant : has_constant -> DataFrame -> DataFrame)
    (m : classifier) (features : DataFrame) (labels : list Z)
    (f : DataFrame -> answer (list Z)) (y_pred : list Z) (w : log) :
  let X := if existsb (classifier_instance_of m) [RegressionResultsWrapper]
           then add_constant HasConstantAdd features else features in
  predict_classes m = Some f -> f X = Ok y_pred -> length labels = length y_pred ->
  get_sse_int64 add_constant m features labels w =
    (Returns (np_sum_int64 (square_int64 (zip_with sub_int64 labels y_pred))),
     w ++ [EvPredict X]).
Proof.
  intros X Hf Hp Hlen. unfold get_sse_int64, predict_int64, bind, call, lift, ret.
  rewrite Hf. fold X. rewrite Hp. cbn [from_library].
  rewrite (elementwise_int64_same_length _ _ _ Hlen). reflexivity.
Qed.

Lemma fold_left_squares (labels y_pred : vector) (acc : float) :
  fold_left PrimFloat.add (square (zip_with PrimFloat.sub labels y_pred)) acc =
  fold_left (fun acc r => (acc + (fst r - snd r) * (fst r - snd r))%float)
            (combine labels y_pred) acc.
Proof.
  unfold square. rewrite zip_with_combine, map_map, fold_left_map. reflexivity.
Qed.

(** C3. With float64 labels and predictions, one prediction per label and no
    squared difference that is NaN, [get_sse] returns the squared differences
    added in binary64 in numpy's order; with fewer than eight rows this is
    the sum over the rows, taken from the first row to the last, and for the
    labels 1, 2, 3 and the predictions 1, 2, 4 it is 1.  With int64 labels
    and predictions [get_sse] returns the sum over the rows of the squared
    differences modulo 2^64, which is that sum when it fits in 64 bits. *)
Theorem get_sse_sum_of_squared_differences
    (add_constant : has_constant -> DataFrame -> DataFrame)
    (features : DataFrame) (w : log) :
  (forall (m : model) (labels : vector) (f : DataFrame -> answer vector)
          (y_pred : vector),
     let X := if isinstance m [RegressionResultsWrapper]
              then add_constant HasConstantAdd features else features in
     let squares := square (zip_with PrimFloat.sub labels y_pred) in
     predict_method m = Some f ->
     f X = Ok y_pred ->
     length labels = length y_pred ->
     Forall (fun t => is_nan t = false) squares ->
     get_sse add_constant m features labels w =
       (Returns (pairwise_sum (length labels) squares), w ++ [EvPredict X])
     /\ (length labels < 8 ->
         pairwise_sum (length labels) squares =
         sum_of_squared_differences labels y_pred)
     /\ (labels = [1; 2; 3]%float -> y_pred = [1; 2; 4]%float ->
         pairwise_sum (length labels) squares = 1%float))
  /\
  (forall (m : classifier) (labels : list Z) (f : DataFrame -> answer (list Z))
          (y_pred : list Z),
     let X := if existsb (classifier_instance_of m) [RegressionResultsWrapper]
              then add_constant HasConstantAdd features else features in
     let total := sum_of_squared_differences_Z labels y_pred in
     predict_classes m = Some f ->
     f X = Ok y_pred ->
     length labels = length y_pred ->
     get_sse_int64 add_constant m features labels w =
       (Returns (wrap64 total), w ++ [EvPredict X])
     /\ ((- 2 ^ 63 <= total < 2 ^ 63)%Z -> wrap64 total = total)).
Proof.
  split.
  - intros m labels f y_pred X squares Hf Hp Hlen Hnan.
    assert (Hsq : length squares = length labels).
    { unfold squares, square. rewrite length_map. now apply zip_with_length. }
    repeat split.
    + rewrite (get_sse_returns add_constant m features labels f y_pred w Hf Hp Hlen).
      fold squares.
      rewrite (np_sum_without_nan squares Hnan (square_nonneg _)), Hsq. reflexivity.
    + intro Hsmall. rewrite pairwise_sum_small by (now rewrite Hsq).
      apply fold_left_squares.
    + intros -> ->. reflexivity.
  - intros m labels f y_pred X total Hf Hp Hlen. split.
    + rewrite (get_sse_int64_returns add_constant m features labels f y_pred w Hf Hp Hlen).
      now rewrite np_sum_int64_square.
    + apply wrap64_in_range.
Qed.

Lemma get_sse_sum_of_squared_differences_witness :
  get_sse sm_add_constant (fitted LinearRegression [1; 2; 4]%float nan) X3
          [1; 2; 3]%float [] = (Returns 1%float, [EvPredict X3])
  /\ get_sse_int64 sm_add_constant (fitted_classifier LogisticRegression [1; 0; 0]%Z) X3
                   [1; 1; 0]%Z [] = (Returns 1%Z, [EvPredict X3]).
Proof.
  split.
  - exact (proj1 (proj1 (get_sse_sum_of_squared_differences sm_add_constant X3 [])
                    (fitted LinearRegression [1; 2; 4]%float nan) [1; 2; 3]%float
                    (fun _ => Ok [1; 2; 4]%float) [1; 2; 4]%float
                    eq_refl eq_refl eq_refl
                    ltac:(repeat constructor))).
  - exact (proj1 (proj2 (get_sse_sum_of_squared_differences sm_add_constant X3 [])
                    (fitted_classifier LogisticRegression [1; 0; 0]%Z) [1; 1; 0]%Z
                    (fun _ => Ok [1; 0; 0]%Z) [1; 0; 0]%Z
                    eq_refl eq_refl eq_refl)).
Defined.

(** C3, as stated, fails: on int64 data the squares wrap around, and one
    label 0 with the prediction 3037000500 gives a negative result, not the
    squared difference; on a Series of labels a row whose label is missing
    is left out of the sum, and the result is a number although one squared
    difference is not; from eight rows on the additions are grouped, and the
    result is not the one of adding row after row. *)
Lemma get_sse_is_not_the_sum_over_all_rows :
  (fst (get_sse_int64 sm_add_constant
          (fitted_classifier LogisticRegression [3037000500]%Z) X1 [0]%Z [])
     = Returns (-9223372036709301616)%Z
   /\ sum_of_squared_differences_Z [0]%Z [3037000500]%Z = 9223372037000250000%Z)
  /\ (fst (get_sse sm_add_constant (fitted LinearRegression [1; 2; 4]%float nan) X3
                   [1; nan; 3]%float [])
        = Returns 1%float
      /\ is_nan (sum_of_squared_differences [1; nan; 3]%float [1; 2; 4]%float) = true)
  /\ (fst (get_sse sm_add_constant (fitted LinearRegression predictions8 nan) X8
                   labels8 [])
        = Returns 2.4299999999999997%float
      /\ sum_of_squared_differences labels8 predictions8 = 2.43%float
      /\ (2.4299999999999997 =? 2.43)%float = false).
Proof.
  repeat split; vm_compute; reflexivity.
Qed.


Lemma get_sse_with_predict
    (add_constant : has_constant -> DataFrame -> DataFrame)
    (m : model) (features : DataFrame) (labels : vector)
    (f : DataFrame -> answer vector) (w : log) :
  let X := if isinstance m [RegressionResultsWrapper]
           then add_constant HasConstantAdd features else features in
  predict_method m = Some f ->
  fst (get_sse add_constant m features labels w) =
    match f X with
    | Ok y_pred =>
        match elementwise PrimFloat.sub labels y_pred with
        | Ok diff => Returns (np_sum (square diff))
        | Fails what => Raises (LibraryError what)
        end
    | Fails what => Raises (LibraryError what)
    end.
Proof.
  intros X Hf. unfold get_sse, hasattr_predict, predict, bind, call, lift, ret.
  rewrite Hf. fold X. destruct (f X) as [y_pred|what]; simpl; [|reflexivity].
  destruct (elementwise PrimFloat.sub labels y_pred); reflexivity.
Qed.





(** ** Residuals *)

Lemma actual_predicted_same_length (labels y_pred : vector) :
  length labels = length y_pred ->
  actual_predicted labels y_pred = Ok (combine labels y_pred).
Proof. unfold actual_predicted. intros ->. now rewrite Nat.eqb_refl. Qed.

Lemma nth_error_combine {A B} (xs : list A) (ys : list B) (i : nat) (a : A) (b : B) :
  nth_error xs i = Some a -> nth_error ys i = Some b ->
  nth_error (combine xs ys) i = Some (a, b).
Proof.
  revert ys i. induction xs as [|x xs IH]; intros [|y ys] [|i]; simpl;
    try discriminate.
  - intros [= ->] [= ->]. reflexivity.
  - apply IH.
Qed.

Lemma calculate_residuals_returns (m : model) (features : DataFrame)
    (labels : vector) (f : DataFrame -> answer vector) (y_pred : vector) (w : log) :
  predict_method m = Some f -> f features = Ok y_pred ->
  length labels = length y_pred ->
  calculate_residuals m features labels w =
    (Returns (map (fun r => mkResidual (fst r) (snd r) (abs (fst r) - abs (snd r))%float)
                  (combine labels y_pred)),
     w ++ [EvPredict features]).
Proof.
  intros Hf Hp Hlen. unfold calculate_residuals.
  rewrite (bind_returns _ _ _ _ _ (predict_returns m features f y_pred w Hf Hp)).
  unfold bind, lift, ret. rewrite (actual_predicted_same_length _ _ Hlen). reflexivity.
Qed.

(** C4. When the model's [predict] yields one prediction per label,
    [calculate_residuals] returns one record per row, holding the label, the
    prediction and, as residual, |label| - |prediction|.  Nothing is kept
    from one call to the next: whatever the log, a call asks the model for
    its predictions again and returns the same records. *)
Theorem calculate_residuals_per_row (m : model) (features : DataFrame)
    (labels : vector) (f : DataFrame -> answer vector) (y_pred : vector) :
  predict_method m = Some f ->
  f features = Ok y_pred ->
  length labels = length y_pred ->
  exists records,
    length records = length labels
    /\ (forall i actual predicted,
          nth_error labels i = Some actual -> nth_error y_pred i = Some predicted ->
          nth_error records i =
            Some (mkResidual actual predicted (abs actual - abs predicted)%float))
    /\ Forall (fun r => Residuals r = (abs (Actual r) - abs (Predicted r))%float) records
    /\ (forall w, calculate_residuals m features labels w =
                  (Returns records, w ++ [EvPredict features]))
    /\ (forall w, bind (calculate_residuals m features labels)
                       (fun _ => calculate_residuals m features labels) w =
                  (Returns records, w ++ [EvPredict features; EvPredict features])).
Proof.
  intros Hf Hp Hlen.
  eexists. split; [|split; [|split; [|split]]].
  4: { intro w. apply (calculate_residuals_returns m features labels f y_pred w Hf Hp Hlen). }
  - rewrite length_map, length_combine, <- Hlen. apply Nat.min_id.
  - intros i a p Ha Hb.
    rewrite nth_error_map, (nth_error_combine _ _ _ _ _ Ha Hb). reflexivity.
  - apply Forall_forall. intros r Hr. apply in_map_iff in Hr.
    destruct Hr as [[a p] [<- _]]. reflexivity.
  - intro w.
    rewrite (bind_returns _ _ _ _ _
               (calculate_residuals_returns m features labels f y_pred w Hf Hp Hlen)).
    rewrite (calculate_residuals_returns m features labels f y_pred _ Hf Hp Hlen).
    now rewrite <- app_assoc.
Qed.

Lemma calculate_residuals_per_row_witness :
  exists records,
    length records = 3
    /\ nth_error records 2 = Some (mkResidual (-3) 4 (-1))%float
    /\ calculate_residuals (fitted LinearRegression [1; 2; 4]%float nan) X3
                           [1; 2; -3]%float [] = (Returns records, [EvPredict X3]).
Proof.
  destruct (calculate_residuals_per_row (fitted LinearRegression [1; 2; 4]%float nan)
              X3 [1; 2; -3]%float (fun _ => Ok [1; 2; 4]%float) [1; 2; 4]%float
              eq_refl eq_refl eq_refl) as [records [Hlen [Hnth [_ [Hrun _]]]]].
  exists records. split; [exact Hlen|]. split.
  - exact (Hnth 2 (-3)%float 4%float eq_refl eq_refl).
  - exact (Hrun []).
Defined.

(** ** Linearity *)

Lemma is_nan_Prim2SF (x : float) : is_nan x = true -> Prim2SF x = S754_nan.
Proof.
  unfold is_nan. rewrite FloatAxioms.eqb_spec. unfold SFeqb.
  destruct (Prim2SF x) as [s|s| |s m e]; simpl; try destruct s; try discriminate;
    try reflexivity;
    rewrite Z.compare_refl;
    change (PosDef.Pos.compare_cont Eq m m) with (Pos.compare m m);
    rewrite Pos.compare_refl; discriminate.
Qed.

(** A comparison with NaN is false. *)
Lemma ltb_nan (x y : float) :
  is_nan x = true \/ is_nan y = true -> (x <? y)%float = false.
Proof.
  rewrite FloatAxioms.ltb_spec. unfold SFltb.
  intros [H|H]; rewrite (is_nan_Prim2SF _ H).
  - reflexivity.
  - destruct (Prim2SF x); reflexivity.
Qed.

Lemma when_show_returns (show : figure -> answer unit) (plot : bool) (fig : figure)
    (w : log) :
  (plot = true -> show fig = Ok tt) ->
  when plot (plt_show show fig) w = (Returns tt, if plot then w ++ [EvShow fig] else w).
Proof.
  destruct plot; simpl; intro H; [|reflexivity].
  unfold plt_show, call. now rewrite (H eq_refl).
Qed.

Lemma linear_assumption_returns (show : figure -> answer unit) (m : model)
    (features : DataFrame) (labels : vector) (p_value_thresh : float) (plot : bool)
    (w w1 : log) (df_results : list residual_record) :
  let fig := ScatterActualPredicted labels (map Predicted df_results) in
  calculate_residuals m features labels w = (Returns df_results, w1) ->
  (plot = true -> show fig = Ok tt) ->
  linear_assumption show m features labels p_value_thresh plot w =
    (Returns (if isinstance m [RegressionResultsWrapper]
              then ((f_pvalue m <? p_value_thresh)%float, Some (f_pvalue m))
              else (true, None)),
     if plot then w1 ++ [EvShow fig] else w1).
Proof.
  intros fig Hres Hshow. unfold linear_assumption.
  rewrite (bind_returns _ _ _ _ _ Hres).
  rewrite (bind_returns _ _ _ _ _ (when_show_returns show plot fig w1 Hshow)).
  destruct (isinstance m [RegressionResultsWrapper]); reflexivity.
Qed.

(** C5, as stated, fails: a results wrapper whose F-test p-value is NaN (a
    regression on the constant alone has one) is reported as not linear,
    although NaN is not greater than or equal to the threshold. *)
Lemma linear_assumption_fails_on_nan_pvalue :
  isinstance (fitted RegressionResultsWrapper [1; 2; 4]%float nan)
             [RegressionResultsWrapper] = true
  /\ linear_assumption mock_show (fitted RegressionResultsWrapper [1; 2; 4]%float nan)
                       X3 [1; 2; 3]%float 0.05%float false []
     = (Returns (false, Some nan), [EvPredict X3])
  /\ geb nan 0.05 = false.
Proof. repeat split. Qed.

(** C5, amended. Once the residuals are computed (and the figure drawn, when
    asked for), [linear_assumption] returns.  For a results wrapper it hands
    back the model's F-test p-value and reports failure exactly when that
    p-value is not below the threshold: when it is greater than or equal to
    it, or when one of the two is NaN.  For any other model it reports the
    assumption as satisfied and hands back no p-value. *)
Theorem linear_assumption_verdict (show : figure -> answer unit) (m : model)
    (features : DataFrame) (labels : vector) (p_value_thresh : float) (plot : bool)
    (w w1 : log) (df_results : list residual_record) :
  calculate_residuals m features labels w = (Returns df_results, w1) ->
  (plot = true ->
   show (ScatterActualPredicted labels (map Predicted df_results)) = Ok tt) ->
  exists is_linearity_found p_value w2,
    linear_assumption show m features labels p_value_thresh plot w =
      (Returns (is_linearity_found, p_value), w2)
    /\ (isinstance m [RegressionResultsWrapper] = true ->
        p_value = Some (f_pvalue m)
        /\ (is_linearity_found = false <->
            (f_pvalue m <? p_value_thresh)%float = false)
        /\ (is_linearity_found = false <->
            geb (f_pvalue m) p_value_thresh = true
            \/ is_nan (f_pvalue m) = true \/ is_nan p_value_thresh = true))
    /\ (isinstance m [RegressionResultsWrapper] = false ->
        is_linearity_found = true /\ p_value = None).
Proof.
  intros Hres Hshow.
  rewrite (linear_assumption_returns show m features labels p_value_thresh plot
             w w1 df_results Hres Hshow).
  destruct (isinstance m [RegressionResultsWrapper]).
  - do 3 eexists. split; [reflexivity|]. split; [|discriminate].
    intros _. split; [reflexivity|]. split; [tauto|].
    destruct (is_nan (f_pvalue m)) eqn:Np.
    { rewrite (ltb_nan _ _ (or_introl Np)). tauto. }
    destruct (is_nan p_value_thresh) eqn:Nt.
    { rewrite (ltb_nan _ _ (or_intror Nt)). tauto. }
    rewrite (ltb_negb_geb _ _ Np Nt).
    destruct (geb (f_pvalue m) p_value_thresh); simpl; split; intro H;
      try tauto; try discriminate.
    destruct H as [H|[H|H]]; discriminate.
  - do 3 eexists. split; [reflexivity|]. split; [discriminate|].
    intros _. split; reflexivity.
Qed.

Lemma linear_assumption_verdict_witness :
  exists w2,
    linear_assumption mock_show (fitted RegressionResultsWrapper [1; 2; 4]%float 0.5%float)
                      X3 [1; 2; 3]%float 0.05%float true [] = (Returns (false, Some 0.5%float), w2).
Proof.
  destruct (linear_assumption_verdict mock_show
              (fitted RegressionResultsWrapper [1; 2; 4]%float 0.5%float)
              X3 [1; 2; 3]%float 0.05%float true [] _ _ eq_refl (fun _ => eq_refl))
    as [found [p_value [w2 [Hrun [Hwrapper _]]]]].
  destruct (Hwrapper eq_refl) as [Hp [Hfound _]].
  exists w2. rewrite Hrun, Hp.
  now rewrite (proj2 Hfound eq_refl).
Defined.

(** ** The verdict over the five checks *)

(** [first_failure] is [True] when every report is satisfied, and otherwise
    the reason of the first report, in order, that is not. *)
Lemma first_failure_spec (reports : list (bool * string)) :
  (Forall (fun r => fst r = true) reports /\ first_failure reports = PyBool true)
  \/ (exists before r after,
        reports = before ++ r :: after
        /\ Forall (fun r' => fst r' = true) before
        /\ fst r = false
        /\ first_failure reports = PyStr (snd r)).
Proof.
  unfold first_failure.
  induction reports as [|[ok reason] reports IH]; simpl.
  - left. split; [constructor | reflexivity].
  - destruct ok; simpl.
    + destruct IH as [[Hall Hv]|[before [r [after [-> [Hb [Hr Hv]]]]]]].
      * left. split; [constructor; [reflexivity | exact Hall] | exact Hv].
      * right. exists ((true, reason) :: before), r, after.
        repeat split; [constructor; [reflexivity | exact Hb] | exact Hr | exact Hv].
    + right. exists [], (false, reason), reports.
      repeat split. constructor.
Qed.

Lemma first_failure_true_iff (reports : list (bool * string)) :
  first_failure reports = PyBool true <-> Forall (fun r => fst r = true) reports.
Proof.
  destruct (first_failure_spec reports)
    as [[Hall Hv]|[before [r [after [-> [Hb [Hr Hv]]]]]]].
  - tauto.
  - split.
    + rewrite Hv. discriminate.
    + intro H. apply Forall_app in H. destruct H as [_ H].
      inversion H as [|? ? Hr' ?]. congruence.
Qed.

Section AssumptionChecks.

Variable add_constant : has_constant -> DataFrame -> DataFrame.
Variable normal_ad : vector -> answer (float * float).
Variable corr : DataFrame -> answer matrix.
Variable show : figure -> answer unit.
Variable independence_of_errors_assumption :
  model -> DataFrame -> vector -> bool -> M (option string * float).
Variable equal_variance_assumption :
  model -> DataFrame -> vector -> float -> bool -> M (string * float).

(** The if-chain of [are_assumptions_satisfied_linear] reports the first
    failure among the five results. *)
Lemma verdict_is_first_failure (lin : bool * option float)
    (ind : option string * float) (nor equ : string * float) (col : bool) (w : log) :
  (if negb (fst lin) then
     ret (PyStr "Linearity assumption is not satisfied.")
   else if is_not_None (fst ind) then
     ret (PyStr "Independence of errors (no autocorrelation) assumption is not satisfied.")
   else if negb (String.eqb (fst nor) "normal") then
     ret (PyStr ("Normality of errors assumption is not satisfied. Distribution type: "
                 ++ fst nor))
   else if negb (String.eqb (fst equ) "equal") then
     ret (PyStr ("Equal variance (homoscedasticity) assumption is not satisfied. Distribution type: "
                 ++ fst equ))
   else if col then
     ret (PyStr "Perfect collinearity assumption is not satisfied.")
   else ret (PyBool true)) w
  = (Returns (first_failure (assumption_reports lin ind nor equ col)), w).
Proof.
  unfold first_failure, assumption_reports.
  destruct lin as [[|] p1]; [|reflexivity].
  destruct ind as [[a|] dw]; [reflexivity|].
  cbn [fst snd negb is_not_None find].
  destruct (String.eqb (fst nor) "normal"); [|reflexivity].
  cbn [fst snd negb find].
  destruct (String.eqb (fst equ) "equal"); [|reflexivity].
  cbn [fst snd negb find].
  destruct col; reflexivity.
Qed.

(** C1. [are_assumptions_satisfied_linear] first runs the five checks one
    after the other, whatever the earlier ones found, and only then looks at
    their results.  When the five return, it returns, in the log left by the
    fifth, [True] if all five are satisfied and otherwise the reason of the
    first that is not, in the order linearity, independence of errors,
    normality of errors, equal variance, perfect collinearity.  When one of
    them raises, the function raises, also when an earlier check had already
    failed. *)
Theorem are_assumptions_satisfied_linear_eager (m : model) (features : DataFrame)
    (labels : vector) (p_value_thresh : float) (w : log) :
  let x_with_const := add_constant HasConstantSkip features in
  let run :=
    are_assumptions_satisfied_linear add_constant normal_ad corr show
      independence_of_errors_assumption equal_variance_assumption
      m features labels p_value_thresh in
  let checks :=
    run_five_checks add_constant normal_ad corr show
      independence_of_errors_assumption equal_variance_assumption
      m features labels p_value_thresh in
  run w = bind checks (fun reports => ret (first_failure reports)) w
  /\ (forall w1 w2 w3 w4 w5 lin ind nor equ col,
      linear_assumption show m x_with_const labels p_value_thresh false w
        = (Returns lin, w1) ->
      independence_of_errors_assumption m x_with_const labels false w1
        = (Returns ind, w2) ->
      normality_of_errors_assumption normal_ad show m x_with_const labels
        p_value_thresh false w2 = (Returns nor, w3) ->
      equal_variance_assumption m x_with_const labels p_value_thresh false w3
        = (Returns equ, w4) ->
      perfect_collinearity_assumption corr show features false w4
        = (Returns col, w5) ->
      let reports := assumption_reports lin ind nor equ col in
      run w = (Returns (first_failure reports), w5)
      /\ (first_failure reports = PyBool true <->
          fst lin = true /\ fst ind = None /\ fst nor = "normal"
          /\ fst equ = "equal" /\ col = false)
      /\ ((Forall (fun r => fst r = true) reports
           /\ first_failure reports = PyBool true)
          \/ (exists before r after,
                reports = before ++ r :: after
                /\ Forall (fun r' => fst r' = true) before
                /\ fst r = false
                /\ first_failure reports = PyStr (snd r))))
  /\ (forall e w', checks w = (Raises e, w') -> run w = (Raises e, w')).
Proof.
  intros Xc run checks.
  assert (Heq : run w = bind checks (fun reports => ret (first_failure reports)) w).
  { unfold run, checks, are_assumptions_satisfied_linear, run_five_checks.
    fold Xc.
    do 5 (rewrite bind_assoc; apply bind_cong; intros ? ?).
    apply verdict_is_first_failure. }
  split; [exact Heq|]. split.
  - intros w1 w2 w3 w4 w5 lin ind nor equ col Hlin Hind Hnor Hequ Hcol reports.
    split; [|split].
    + rewrite Heq. unfold checks, run_five_checks. fold Xc.
      rewrite (bind_returns _ _ w w5 reports); [reflexivity|].
      rewrite (bind_returns _ _ _ _ _ Hlin), (bind_returns _ _ _ _ _ Hind),
        (bind_returns _ _ _ _ _ Hnor), (bind_returns _ _ _ _ _ Hequ),
        (bind_returns _ _ _ _ _ Hcol).
      reflexivity.
    + rewrite first_failure_true_iff. unfold reports, assumption_reports.
      split.
      * intro H.
        inversion H as [|? ? H1 H']; subst. inversion H' as [|? ? H2 H'']; subst.
        inversion H'' as [|? ? H3 H3']; subst. inversion H3' as [|? ? H4 H4']; subst.
        inversion H4' as [|? ? H5 _]; subst. cbn [fst] in *.
        repeat split.
        -- exact H1.
        -- destruct (fst ind); [discriminate | reflexivity].
        -- now apply String.eqb_eq.
        -- now apply String.eqb_eq.
        -- now destruct col.
      * intros [H1 [H2 [H3 [H4 H5]]]].
        repeat constructor; cbn [fst].
        -- exact H1.
        -- now rewrite H2.
        -- now apply String.eqb_eq.
        -- now apply String.eqb_eq.
        -- now rewrite H5.
    + apply first_failure_spec.
  - intros e w' Hraise. rewrite Heq. apply (bind_raises _ _ _ _ _ Hraise).
Qed.

End AssumptionChecks.

Lemma are_assumptions_satisfied_linear_eager_witness :
  are_assumptions_satisfied_linear sm_add_constant (mock_normal_ad 2.5 0.01)
    pandas_corr mock_show (mock_independence (Some "positive") 0.8)
    (mock_equal_variance "unequal" 0.01) ols_not_significant X3
    [1; 2; 3]%float 0.05%float []
  = (Returns (PyStr "Linearity assumption is not satisfied."), log_of_five_checks).
Proof.
  destruct (are_assumptions_satisfied_linear_eager sm_add_constant
              (mock_normal_ad 2.5 0.01) pandas_corr mock_show
              (mock_independence (Some "positive") 0.8)
              (mock_equal_variance "unequal" 0.01) ols_not_significant X3
              [1; 2; 3]%float 0.05%float [])
    as [_ [Hreturns _]].
  edestruct Hreturns as [Hrun _];
    [lazy; reflexivity | lazy; reflexivity | lazy; reflexivity
     | lazy; reflexivity | lazy; reflexivity |].
  exact Hrun.
Defined.

(** The linearity check fails, and the correlation matrix is computed all the
    same: what comes out is its exception, not the reason of the linearity
    check. *)
Example failed_linearity_does_not_skip_collinearity :
  are_assumptions_satisfied_linear sm_add_constant (mock_normal_ad 2.5 0.01)
    pandas_corr mock_show (mock_independence None 2)
    (mock_equal_variance "equal" 0.3) ols_not_significant X3_with_text
    [1; 2; 3]%float 0.05%float []
  = (Raises (LibraryError "ValueError: could not convert string to float"),
     [ EvPredict (sm_add_constant HasConstantSkip X3_with_text);
       EvCall "independence_of_errors_assumption";
       EvPredict (sm_add_constant HasConstantSkip X3_with_text);
       EvNormalAD [0; 0; -1]%float;
       EvCall "equal_variance_assumption";
       EvCorr X3_with_text ]).
Proof. reflexivity. Qed.

(** ** Normality of errors *)

Lemma normality_of_errors_assumption_returns
    (normal_ad : vector -> answer (float * float)) (show : figure -> answer unit)
    (m : model) (features : DataFrame) (label : vector) (p_value_thresh : float)
    (plot : bool) (w w1 : log) (df_results : list residual_record)
    (ad2 p_value : float) :
  let residuals := map Residuals df_results in
  calculate_residuals m features label w = (Returns df_results, w1) ->
  (plot = true -> show (ResidualHistogram residuals) = Ok tt) ->
  normal_ad residuals = Ok (ad2, p_value) ->
  normality_of_errors_assumption normal_ad show m features label p_value_thresh plot w
  = (Returns (if geb p_value p_value_thresh then "normal" else "non-normal", p_value),
     (if plot then w1 ++ [EvShow (ResidualHistogram residuals)] else w1)
       ++ [EvNormalAD residuals]).
Proof.
  intros residuals Hres Hshow Had. unfold normality_of_errors_assumption.
  rewrite (bind_returns _ _ _ _ _ Hres). fold residuals.
  rewrite (bind_returns _ _ _ _ _
             (when_show_returns show plot (ResidualHistogram residuals) w1 Hshow)).
  unfold bind, call, ret. rewrite Had. reflexivity.
Qed.

(** C7. Once the residuals are computed and the Anderson-Darling test has
    returned its p-value, [normality_of_errors_assumption] returns that
    p-value with the type "normal" exactly when the p-value is greater than or
    equal to the threshold, and "non-normal" otherwise.  In
    [are_assumptions_satisfied_linear], when linearity and independence of
    errors are satisfied, the type "non-normal" makes the function return the
    reason of the normality check instead of [True]. *)
Theorem normality_of_errors_classification
    (add_constant : has_constant -> DataFrame -> DataFrame)
    (normal_ad : vector -> answer (float * float))
    (corr : DataFrame -> answer matrix) (show : figure -> answer unit)
    (independence_of_errors_assumption :
       model -> DataFrame -> vector -> bool -> M (option string * float))
    (equal_variance_assumption :
       model -> DataFrame -> vector -> float -> bool -> M (string * float))
    (m : model) (features : DataFrame) (labels : vector) (p_value_thresh : float) :
  (forall plot w w1 df_results ad2 p_value,
      calculate_residuals m features labels w = (Returns df_results, w1) ->
      (plot = true ->
       show (ResidualHistogram (map Residuals df_results)) = Ok tt) ->
      normal_ad (map Residuals df_results) = Ok (ad2, p_value) ->
      exists dist_type w2,
        normality_of_errors_assumption normal_ad show m features labels
          p_value_thresh plot w = (Returns (dist_type, p_value), w2)
        /\ (dist_type = "normal" <-> geb p_value p_value_thresh = true)
        /\ (dist_type = "non-normal" <-> geb p_value p_value_thresh = false))
  /\ (forall w w1 w2 w3 w4 w5 lin ind p_value equ col,
      let x_with_const := add_constant HasConstantSkip features in
      linear_assumption show m x_with_const labels p_value_thresh false w
        = (Returns lin, w1) ->
      fst lin = true ->
      independence_of_errors_assumption m x_with_const labels false w1
        = (Returns ind, w2) ->
      fst ind = None ->
      normality_of_errors_assumption normal_ad show m x_with_const labels
        p_value_thresh false w2 = (Returns ("non-normal", p_value), w3) ->
      equal_variance_assumption m x_with_const labels p_value_thresh false w3
        = (Returns equ, w4) ->
      perfect_collinearity_assumption corr show features false w4
        = (Returns col, w5) ->
      are_assumptions_satisfied_linear add_constant normal_ad corr show
        independence_of_errors_assumption equal_variance_assumption
        m features labels p_value_thresh w
      = (Returns (PyStr "Normality of errors assumption is not satisfied. Distribution type: non-normal"),
         w5)).
Proof.
  split.
  - intros plot w w1 df_results ad2 p_value Hres Hshow Had.
    rewrite (normality_of_errors_assumption_returns normal_ad show m features labels
               p_value_thresh plot w w1 df_results ad2 p_value Hres Hshow Had).
    do 2 eexists. split; [reflexivity|].
    destruct (geb p_value p_value_thresh); split; split; intro H;
      try reflexivity; try discriminate.
  - intros w w1 w2 w3 w4 w5 lin ind p_value equ col Xc Hlin Hl Hind Hi Hnor Hequ Hcol.
    unfold are_assumptions_satisfied_linear. fold Xc.
    rewrite (bind_returns _ _ _ _ _ Hlin), (bind_returns _ _ _ _ _ Hind),
      (bind_returns _ _ _ _ _ Hnor), (bind_returns _ _ _ _ _ Hequ),
      (bind_returns _ _ _ _ _ Hcol).
    rewrite Hl, Hi. reflexivity.
Qed.

Lemma normality_of_errors_classification_witness :
  (exists w2,
      normality_of_errors_assumption (mock_normal_ad 2.5 0.01) mock_show
        ols_significant X3 [1; 2; 3]%float 0.05%float true []
      = (Returns ("non-normal", 0.01%float), w2))
  /\ are_assumptions_satisfied_linear sm_add_constant (mock_normal_ad 2.5 0.01)
       pandas_corr mock_show (mock_independence None 2)
       (mock_equal_variance "equal" 0.3) ols_significant X3
       [1; 2; 3]%float 0.05%float []
     = (Returns (PyStr "Normality of errors assumption is not satisfied. Distribution type: non-normal"),
        log_of_five_checks).
Proof.
  destruct (normality_of_errors_classification sm_add_constant
              (mock_normal_ad 2.5 0.01) pandas_corr mock_show
              (mock_independence None 2) (mock_equal_variance "equal" 0.3)
              ols_significant X3 [1; 2; 3]%float 0.05%float) as [Hclass Hoverall].
  split.
  - destruct (Hclass true [] _ _ 2.5%float 0.01%float eq_refl (fun _ => eq_refl)
                eq_refl) as [dist_type [w2 [Hrun [_ Hnon]]]].
    exists w2. rewrite Hrun. now rewrite (proj2 Hnon eq_refl).
  - eapply Hoverall; lazy; reflexivity.
Defined.

(** ** Dispatch on the model's class *)

Lemma isinstance_typed (c : py_class) (m : model) (cs : list py_class) :
  typed c m -> isinstance m cs = existsb (py_class_eqb c) cs.
Proof.
  intro H. unfold isinstance. induction cs as [|c' cs IH]; simpl; [reflexivity|].
  now rewrite H, IH.
Qed.

Lemma route_typed (c : py_class) (m : model) :
  typed c m ->
  route m = match c with
            | LinearRegression | RegressionResultsWrapper => LinearPath
            | Ridge | Lasso => RidgeLassoPath
            | LogisticRegression => LogisticPath
            end.
Proof.
  intro H. unfold route. rewrite !(isinstance_typed c m _ H).
  destruct c; reflexivity.
Qed.

(** C2, as stated, fails: a Ridge model and a Lasso model take the same
    branch of [check_model_assumptions] and are handed to the same function,
    so the four classes reach three code paths, not four. *)
Lemma ridge_and_lasso_share_a_code_path :
  route ridge_model = route lasso_model
  /\ ~ NoDup [route ridge_model; route lasso_model;
              route linear_model; route logistic_model]
  /\ patched_check_model_assumptions ridge_model X3 [1; 2; 3]%float 0.05%float []
     = (Returns (PyStr "are_assumptions_satisfied_ridge_lasso"),
        [EvCall "are_assumptions_satisfied_ridge_lasso"])
  /\ patched_check_model_assumptions lasso_model X3 [1; 2; 3]%float 0.05%float []
     = (Returns (PyStr "are_assumptions_satisfied_ridge_lasso"),
        [EvCall "are_assumptions_satisfied_ridge_lasso"]).
Proof.
  split; [reflexivity|]. split; [|split; reflexivity].
  intro H. inversion H as [|? ? Hnotin _]. apply Hnotin. now left.
Qed.

(** C2, amended. [check_model_assumptions] sends a Ridge model and a Lasso
    model to the same ridge/lasso check, a plain linear regression (or a
    results wrapper) to the check of the linear assumptions, and a logistic
    regression to the logistic check: three code paths, distinct from one
    another. *)
Theorem check_model_assumptions_routes
    (add_constant : has_constant -> DataFrame -> DataFrame)
    (normal_ad : vector -> answer (float * float))
    (corr : DataFrame -> answer matrix) (show : figure -> answer unit)
    (independence_of_errors_assumption :
       model -> DataFrame -> vector -> bool -> M (option string * float))
    (equal_variance_assumption :
       model -> DataFrame -> vector -> float -> bool -> M (string * float))
    (are_assumptions_satisfied_ridge_lasso are_assumptions_satisfied_logistic :
       model -> DataFrame -> vector -> float -> M py_value)
    (ridge lasso ols logistic : model)
    (features : DataFrame) (labels : vector) (p_value_thresh : float) :
  let check :=
    check_model_assumptions add_constant normal_ad corr show
      independence_of_errors_assumption equal_variance_assumption
      are_assumptions_satisfied_ridge_lasso are_assumptions_satisfied_logistic in
  typed Ridge ridge ->
  typed Lasso lasso ->
  typed LinearRegression ols \/ typed RegressionResultsWrapper ols ->
  typed LogisticRegression logistic ->
  (route ridge = RidgeLassoPath /\ route lasso = RidgeLassoPath
   /\ route ols = LinearPath /\ route logistic = LogisticPath)
  /\ (LinearPath <> RidgeLassoPath /\ LinearPath <> LogisticPath
      /\ RidgeLassoPath <> LogisticPath)
  /\ check ridge features labels p_value_thresh
     = are_assumptions_satisfied_ridge_lasso ridge features labels p_value_thresh
  /\ check lasso features labels p_value_thresh
     = are_assumptions_satisfied_ridge_lasso lasso features labels p_value_thresh
  /\ check ols features labels p_value_thresh
     = are_assumptions_satisfied_linear add_constant normal_ad corr show
         independence_of_errors_assumption equal_variance_assumption
         ols features labels p_value_thresh
  /\ check logistic features labels p_value_thresh
     = are_assumptions_satisfied_logistic logistic features labels p_value_thresh.
Proof.
  intros check Hr Hl Ho Hg.
  assert (Er : route ridge = RidgeLassoPath) by exact (route_typed _ _ Hr).
  assert (El : route lasso = RidgeLassoPath) by exact (route_typed _ _ Hl).
  assert (Eo : route ols = LinearPath)
    by (destruct Ho as [Ho|Ho]; exact (route_typed _ _ Ho)).
  assert (Eg : route logistic = LogisticPath) by exact (route_typed _ _ Hg).
  split; [repeat split; assumption|].
  split; [repeat split; discriminate|].
  unfold check, check_model_assumptions. rewrite Er, El, Eo, Eg.
  repeat split.
Qed.

Lemma typed_fitted (c : py_class) (y_pred : vector) (pvalue : float) :
  typed c (fitted c y_pred pvalue).
Proof. intro c'. reflexivity. Qed.

Lemma check_model_assumptions_routes_witness :
  route ridge_model = RidgeLassoPath /\ route lasso_model = RidgeLassoPath
  /\ route linear_model = LinearPath /\ route logistic_model = LogisticPath.
Proof.
  exact (proj1 (check_model_assumptions_routes sm_add_constant
                  (mock_normal_ad 0.2 0.6) pandas_corr mock_show
                  (mock_independence None 2) (mock_equal_variance "equal" 0.3)
                  (mock_handler "are_assumptions_satisfied_ridge_lasso")
                  (mock_handler "are_assumptions_satisfied_logistic")
                  ridge_model lasso_model linear_model logistic_model
                  X3 [1; 2; 3]%float 0.05%float
                  (typed_fitted Ridge _ _) (typed_fitted Lasso _ _)
                  (or_introl (typed_fitted LinearRegression _ _))
                  (typed_fitted LogisticRegression _ _))).
Defined.

(** C9. For a model that is an instance of none of the five classes,
    [check_model_assumptions] returns the message that the model type is not
    supported; it calls nothing and raises nothing. *)
Theorem check_model_assumptions_unsupported
    (add_constant : has_constant -> DataFrame -> DataFrame)
    (normal_ad : vector -> answer (float * float))
    (corr : DataFrame -> answer matrix) (show : figure -> answer unit)
    (independence_of_errors_assumption :
       model -> DataFrame -> vector -> bool -> M (option string * float))
    (equal_variance_assumption :
       model -> DataFrame -> vector -> float -> bool -> M (string * float))
    (are_assumptions_satisfied_ridge_lasso are_assumptions_satisfied_logistic :
       model -> DataFrame -> vector -> float -> M py_value)
    (m : model) (features : DataFrame) (labels : vector) (p_value_thresh : float)
    (w : log) :
  (forall c, instance_of m c = false) ->
  check_model_assumptions add_constant normal_ad corr show
    independence_of_errors_assumption equal_variance_assumption
    are_assumptions_satisfied_ridge_lasso are_assumptions_satisfied_logistic
    m features labels p_value_thresh w
  = (Returns (PyStr "Model type not supported for assumption checks."), w).
Proof.
  intro H. unfold check_model_assumptions, route, isinstance. simpl.
  rewrite !H. reflexivity.
Qed.

Lemma check_model_assumptions_unsupported_witness :
  patched_check_model_assumptions no_predict X3 [1; 2; 3]%float 0.05%float []
  = (Returns (PyStr "Model type not supported for assumption checks."), []).
Proof.
  apply check_model_assumptions_unsupported. intro c. reflexivity.
Defined.

(** ** Perfect collinearity *)

Lemma existsb_orb {A} (p q : A -> bool) (l : list A) :
  existsb (fun x => p x || q x) l = existsb p l || existsb q l.
Proof.
  induction l as [|a l IH]; simpl; [reflexivity|].
  rewrite IH. destruct (p a), (q a), (existsb p l), (existsb q l); reflexivity.
Qed.

Lemma any_any_orb (p q : float -> bool) (a : matrix) :
  any_any (fun x => p x || q x) a = any_any p a || any_any q a.
Proof.
  unfold any_any. rewrite <- existsb_orb.
  induction a as [|row a IH]; simpl; [reflexivity|].
  now rewrite existsb_orb, IH.
Qed.

(** Once position [k] of a row is NaN, a test that NaN fails is passed by the
    row exactly when it is passed at another position. *)
Lemma existsb_set_nth (test : float -> bool) (row : list float) (k : nat) :
  test nan = false ->
  existsb test (set_nth k nan row) = true <->
  exists j x, j <> k /\ nth_error row j = Some x /\ test x = true.
Proof.
  intro Hnan. revert k. induction row as [|x row IH]; intro k.
  - destruct k; simpl; (split; [discriminate|]);
      intros [j [y [_ [H _]]]]; destruct j; discriminate.
  - destruct k as [|k]; simpl.
    + rewrite Hnan. simpl. rewrite existsb_exists. split.
      * intros [y [Hin Hy]]. apply In_nth_error in Hin. destruct Hin as [j Hj].
        exists (S j), y. repeat split; [discriminate | exact Hj | exact Hy].
      * intros [j [y [Hj [Hnth Hy]]]]. destruct j as [|j]; [congruence|].
        exists y. split; [eapply nth_error_In; exact Hnth | exact Hy].
    + rewrite orb_true_iff, IH. split.
      * intros [Hx|[j [y [Hj [Hnth Hy]]]]].
        -- exists 0, x. repeat split; [discriminate | exact Hx].
        -- exists (S j), y. repeat split; [congruence | exact Hnth | exact Hy].
      * intros [j [y [Hj [Hnth Hy]]]]. destruct j as [|j].
        -- left. simpl in Hnth. congruence.
        -- right. exists j, y. repeat split; [congruence | exact Hnth | exact Hy].
Qed.

Lemma any_any_fill_diagonal_from (test : float -> bool) (a : matrix) (k : nat) :
  test nan = false ->
  any_any test (fill_diagonal_from k a nan) = true <->
  exists i j x, j <> k + i /\ entry a i j = Some x /\ test x = true.
Proof.
  intro Hnan. revert k. induction a as [|row a IH]; intro k.
  - simpl. split; [discriminate|].
    intros [i [j [x [_ [H _]]]]]. unfold entry in H. destruct i; discriminate.
  - simpl. unfold any_any in IH. rewrite orb_true_iff, (IH (S k)),
      (existsb_set_nth test row k Hnan). split.
    + intros [[j [x [Hj [Hnth Hx]]]]|[i [j [x [Hj [He Hx]]]]]].
      * exists 0, j, x. rewrite Nat.add_0_r. repeat split; assumption.
      * exists (S i), j, x. repeat split; [lia | exact He | exact Hx].
    + intros [i [j [x [Hj [He Hx]]]]]. destruct i as [|i].
      * left. exists j, x. rewrite Nat.add_0_r in Hj. repeat split; assumption.
      * right. exists i, j, x. repeat split; [lia | exact He | exact Hx].
Qed.

Lemma any_any_ext (p q : float -> bool) (a : matrix) :
  (forall x, p x = q x) -> any_any p a = any_any q a.
Proof.
  intro H. unfold any_any.
  induction a as [|row a IH]; simpl; [reflexivity|].
  rewrite IH. f_equal.
  induction row as [|x row IHrow]; simpl; [reflexivity|]. now rewrite H, IHrow.
Qed.

Lemma perfect_collinearity_assumption_returns
    (corr : DataFrame -> answer matrix) (show : figure -> answer unit)
    (features : DataFrame) (plot : bool) (w : log) (c : matrix) :
  corr features = Ok c ->
  (plot = true -> show (CorrelationHeatmap c) = Ok tt) ->
  perfect_collinearity_assumption corr show features plot w
  = (Returns (any_any (fun x => gtb (abs x) 0.999) (fill_diagonal c nan)),
     if plot then w ++ [EvCorr features; EvShow (CorrelationHeatmap c)]
     else w ++ [EvCorr features]).
Proof.
  intros Hc Hshow. unfold perfect_collinearity_assumption.
  assert (Hcall : call (EvCorr features) (corr features) w
                  = (Returns c, w ++ [EvCorr features]))
    by (unfold call; now rewrite Hc).
  rewrite (bind_returns _ _ _ _ _ Hcall).
  rewrite (bind_returns _ _ _ _ _
             (when_show_returns show plot (CorrelationHeatmap c) _ Hshow)).
  unfold ret. rewrite <- any_any_orb.
  rewrite (any_any_ext _ (fun x => gtb (abs x) 0.999))
    by (intro x; symmetry; apply abs_exceeds_threshold).
  destruct plot; [now rewrite <- app_assoc | reflexivity].
Qed.

(** C6, as stated, fails in its second part: for two exactly duplicated
    columns that are constant, pandas has no correlation coefficient (the
    divisor is zero, the entries are NaN), and [perfect_collinearity_assumption]
    returns false. *)
Lemma duplicated_constant_columns_not_detected :
  (exists col, map snd (columns X3_duplicated_constant) = [col; col])
  /\ pandas_corr X3_duplicated_constant = Ok [[nan; nan]; [nan; nan]]
  /\ perfect_collinearity_assumption pandas_corr mock_show X3_duplicated_constant
       false []
     = (Returns false, [EvCorr X3_duplicated_constant]).
Proof.
  split; [eexists; reflexivity|]. split; reflexivity.
Qed.

(** C6, amended. Once the correlation matrix of the features is computed
    (and drawn, when asked for), [perfect_collinearity_assumption] returns
    true exactly when some entry of the matrix off the diagonal has an
    absolute value above 0.999; in particular it returns true when the matrix
    gives the coefficient 1 for two duplicated columns.  (It does not for
    duplicated constant columns, whose coefficient is NaN.) *)
Theorem perfect_collinearity_assumption_threshold
    (corr : DataFrame -> answer matrix) (show : figure -> answer unit)
    (features : DataFrame) (plot : bool) (w : log) (c : matrix) :
  corr features = Ok c ->
  (plot = true -> show (CorrelationHeatmap c) = Ok tt) ->
  exists has_perfect_collinearity w',
    perfect_collinearity_assumption corr show features plot w
      = (Returns has_perfect_collinearity, w')
    /\ (has_perfect_collinearity = true <->
        exists i j x, i <> j /\ entry c i j = Some x /\ gtb (abs x) 0.999 = true)
    /\ (forall i j, i <> j -> entry c i j = Some 1%float ->
        has_perfect_collinearity = true).
Proof.
  intros Hc Hshow.
  rewrite (perfect_collinearity_assumption_returns corr show features plot w c
             Hc Hshow).
  do 2 eexists. split; [reflexivity|].
  assert (Hiff : any_any (fun x => gtb (abs x) 0.999) (fill_diagonal c nan) = true <->
                 exists i j x, i <> j /\ entry c i j = Some x
                               /\ gtb (abs x) 0.999 = true).
  { unfold fill_diagonal.
    rewrite (any_any_fill_diagonal_from (fun x => gtb (abs x) 0.999) c 0 eq_refl).
    split; intros [i [j [x [Hij H]]]]; exists i, j, x; (split; [|exact H]);
      simpl in *; congruence. }
  split; [exact Hiff|].
  intros i j Hij He. apply Hiff. exists i, j, 1%float.
  repeat split; [exact Hij | exact He].
Qed.

Lemma perfect_collinearity_assumption_threshold_witness :
  perfect_collinearity_assumption pandas_corr mock_show X3_duplicated true []
  = (Returns true,
     [EvCorr X3_duplicated; EvShow (CorrelationHeatmap [[1; 1]; [1; 1]]%float)]).
Proof.
  destruct (perfect_collinearity_assumption_threshold pandas_corr mock_show
              X3_duplicated true [] [[1; 1]; [1; 1]]%float eq_refl (fun _ => eq_refl))
    as [has [w' [Hrun [_ Hdup]]]].
  rewrite Hrun. rewrite (Hdup 0 1 (fun H => O_S 0 H) eq_refl).
  rewrite (perfect_collinearity_assumption_returns pandas_corr mock_show
             X3_duplicated true [] [[1; 1]; [1; 1]]%float eq_refl (fun _ => eq_refl))
    in Hrun.
  injection Hrun as _ <-. reflexivity.
Defined.

(** * Further properties of the module *)

(** ** The chart of body mass indices *)

Lemma getitem_missing (df : DataFrame) (name : string) :
  (forall c, In c (columns df) -> fst c <> name) ->
  getitem df name = Fails ("KeyError: " ++ name).
Proof.
  intro H. unfold getitem.
  replace (filter (fun c => String.eqb (fst c) name) (columns df)) with
    (@nil (string * list cell)); [reflexivity|].
  symmetry. induction (columns df) as [|c cols IH]; simpl; [reflexivity|].
  destruct (String.eqb_spec (fst c) name) as [E|_].
  - exfalso. apply (H c); [now left | exact E].
  - apply IH. intros c' Hc'. apply H. now right.
Qed.

(** The frame has no column labelled "BMI": [bmi_histogram] raises KeyError
    and draws nothing. *)
Theorem bmi_histogram_missing_column
    (bar : list string -> list nat -> answer unit) (df : DataFrame) (w : log) :
  (forall c, In c (columns df) -> fst c <> "BMI") ->
  bmi_histogram bar df w = (Raises (LibraryError "KeyError: BMI"), w).
Proof.
  intro H. unfold bmi_histogram, bind, lift.
  rewrite (getitem_missing df "BMI" H). reflexivity.
Qed.

Lemma bmi_histogram_missing_column_witness :
  bmi_histogram mock_bar X3_with_text [] = (Raises (LibraryError "KeyError: BMI"), []).
Proof.
  apply bmi_histogram_missing_column.
  intros c [<-|[<-|[]]]; simpl; discriminate.
Defined.

Lemma bmi_band_cases (x : float) :
  bmi_band x = "Underweight" \/ bmi_band x = "Healthy Weight"
  \/ bmi_band x = "Overweight" \/ bmi_band x = "Obesity".
Proof.
  unfold bmi_band.
  destruct (x <? 18.5)%float; [tauto|].
  destruct (x <? 25)%float; [tauto|].
  destruct (x <? 30)%float; tauto.
Qed.

Lemma count_band_cons (band : string) (x : float) (xs : vector) :
  count_band band (x :: xs)
  = (if String.eqb (bmi_band x) band then 1 else 0) + count_band band xs.
Proof.
  unfold count_band. cbn [filter].
  destruct (String.eqb (bmi_band x) band); reflexivity.
Qed.

Lemma bmi_loop_numbers (xs : vector) (a b c d : nat) :
  bmi_loop (map (fun x => [Num x]) xs)
           [("Underweight", a); ("Healthy Weight", b); ("Overweight", c); ("Obesity", d)]
  = Ok [("Underweight", a + count_band "Underweight" xs);
        ("Healthy Weight", b + count_band "Healthy Weight" xs);
        ("Overweight", c + count_band "Overweight" xs);
        ("Obesity", d + count_band "Obesity" xs)].
Proof.
  revert a b c d. induction xs as [|x xs IH]; intros a b c d.
  - simpl. now rewrite !Nat.add_0_r.
  - cbn [map bmi_loop bmi_category]. rewrite !count_band_cons.
    destruct (bmi_band_cases x) as [E|[E|[E|E]]]; rewrite E;
      cbn -[count_band]; rewrite IH, Nat.add_succ_r; reflexivity.
Qed.

Lemma count_band_total (xs : vector) :
  count_band "Underweight" xs + count_band "Healthy Weight" xs
  + count_band "Overweight" xs + count_band "Obesity" xs = length xs.
Proof.
  induction xs as [|x xs IH]; [reflexivity|].
  rewrite !count_band_cons.
  destruct (bmi_band_cases x) as [E|[E|[E|E]]]; rewrite E;
    cbn -[count_band]; lia.
Qed.

Lemma stored_numeric (col : list cell) :
  existsb is_text col = false -> existsb is_number col = true \/ col = [] ->
  stored col = map Num (map as_number col).
Proof.
  intros H [Hnum| ->]; [|reflexivity].
  unfold stored. rewrite H, Hnum. cbn [negb orb]. clear Hnum. rewrite map_map.
  induction col as [|c col IH]; [reflexivity|].
  cbn [existsb] in H. apply orb_false_iff in H. destruct H as [Hc H].
  cbn [map]. rewrite (IH H). destruct c; [reflexivity | discriminate | reflexivity].
Qed.

(** With one column "BMI" that holds no text and at least one number (or no
    row at all), [bmi_histogram] draws four bars, in the order Underweight,
    Healthy Weight, Overweight, Obesity, whose heights are the numbers of
    values in each band (a missing entry among the numbers is the value NaN);
    every row is counted in exactly one bar, so the heights add up to the
    number of rows. *)
Theorem bmi_histogram_counts
    (bar : list string -> list nat -> answer unit) (df : DataFrame)
    (label : string) (col : list cell) (w : log) :
  filter (fun c => String.eqb (fst c) "BMI") (columns df) = [(label, col)] ->
  existsb is_text col = false ->
  existsb is_number col = true \/ col = [] ->
  let xs := map as_number col in
  let counts := [count_band "Underweight" xs; count_band "Healthy Weight" xs;
                 count_band "Overweight" xs; count_band "Obesity" xs] in
  bmi_histogram bar df w
  = (from_library
       (bar ["Underweight"; "Healthy Weight"; "Overweight"; "Obesity"] counts),
     w ++ [EvCall "plt.bar"])
  /\ list_sum counts = length col.
Proof.
  intros Hcol Hnum Hsome xs counts. split.
  - unfold bmi_histogram, bind, lift, getitem. rewrite Hcol.
    cbn [map snd row_values from_library]. rewrite (stored_numeric col Hnum Hsome).
    fold xs. rewrite map_map.
    unfold bmi_frequency0. rewrite bmi_loop_numbers. reflexivity.
  - unfold counts, list_sum. cbn [fold_right].
    pose proof (count_band_total xs) as H. unfold xs in H at 5.
    rewrite length_map in H. lia.
Qed.

Lemma bmi_histogram_counts_witness :
  bmi_histogram mock_bar bmi_frame_with_none [] = (Returns tt, [EvCall "plt.bar"])
  /\ list_sum [count_band "Underweight" [17; nan; 30]%float;
               count_band "Healthy Weight" [17; nan; 30]%float;
               count_band "Overweight" [17; nan; 30]%float;
               count_band "Obesity" [17; nan; 30]%float] = 3.
Proof.
  exact (bmi_histogram_counts mock_bar bmi_frame_with_none "BMI"
           [Num 17; NoneCell; Num 30]%float [] eq_refl eq_refl (or_introl eq_refl)).
Defined.

Lemma bmi_loop_not_a_number (col : list cell) (frequency : list (string * nat)) :
  (exists c, In c col /\ is_number c = false) ->
  bmi_loop (map (fun x => [x]) col) frequency = Fails "TypeError: '<' not supported".
Proof.
  revert frequency. induction col as [|c col IH]; intros frequency [c' [Hin Hc']].
  - destruct Hin.
  - cbn [map bmi_loop]. destruct c as [x|s|]; try reflexivity.
    cbn [bmi_category]. apply IH. exists c'. split; [|exact Hc'].
    destruct Hin as [<-|Hin]; [discriminate | exact Hin].
Qed.

(** A column "BMI" that holds text stops [bmi_histogram] with a TypeError at
    the comparison, and nothing is drawn. *)
Theorem bmi_histogram_not_a_number
    (bar : list string -> list nat -> answer unit) (df : DataFrame)
    (label : string) (col : list cell) (w : log) :
  filter (fun c => String.eqb (fst c) "BMI") (columns df) = [(label, col)] ->
  existsb is_text col = true ->
  bmi_histogram bar df w = (Raises (LibraryError "TypeError: '<' not supported"), w).
Proof.
  intros Hcol Htext. unfold bmi_histogram, bind, lift, getitem. rewrite Hcol.
  cbn [map snd row_values from_library]. unfold stored. rewrite Htext. cbn [orb].
  rewrite (bmi_loop_not_a_number col); [reflexivity|].
  apply existsb_exists in Htext. destruct Htext as [c [Hin Hc]].
  exists c. split; [exact Hin|]. destruct c; try discriminate; reflexivity.
Qed.

Lemma bmi_histogram_not_a_number_witness :
  bmi_histogram mock_bar bmi_frame_with_text []
  = (Raises (LibraryError "TypeError: '<' not supported"), []).
Proof.
  exact (bmi_histogram_not_a_number mock_bar bmi_frame_with_text "BMI"
           [Num 17; Str "n/a"; Num 30]%float [] eq_refl eq_refl).
Defined.

Lemma geb_nan (x y : float) :
  is_nan x = true \/ is_nan y = true -> geb x y = false.
Proof.
  unfold geb. rewrite FloatAxioms.leb_spec. unfold SFleb.
  intros [H|H]; rewrite (is_nan_Prim2SF _ H).
  - destruct (Prim2SF y); reflexivity.
  - reflexivity.
Qed.

(** Below a positive number, below every larger one of the same exponent. *)
Lemma SFltb_mono (a : spec_float) (m1 m2 : positive) (e0 : Z) :
  (m1 <= m2)%positive ->
  SFltb a (S754_finite false m1 e0) = true ->
  SFltb a (S754_finite false m2 e0) = true.
Proof.
  intro Hle. unfold SFltb.
  destruct a as [s|s| |s m e]; simpl; try destruct s; try discriminate;
    try reflexivity.
  destruct (e ?= e0)%Z; try discriminate; try reflexivity.
  change (PosDef.Pos.compare_cont Eq m m1) with (Pos.compare m m1).
  change (PosDef.Pos.compare_cont Eq m m2) with (Pos.compare m m2).
  destruct (Pos.compare_spec m m1); try discriminate. intros _.
  destruct (Pos.compare_spec m m2); try reflexivity; lia.
Qed.

Lemma Prim2SF_18_5 : Prim2SF 18.5 = S754_finite false 5207287069147136 (-48).
Proof. vm_compute. reflexivity. Qed.

Lemma Prim2SF_25 : Prim2SF 25 = S754_finite false 7036874417766400 (-48).
Proof. vm_compute. reflexivity. Qed.

Lemma Prim2SF_30 : Prim2SF 30 = S754_finite false 8444249301319680 (-48).
Proof. vm_compute. reflexivity. Qed.

Lemma ltb_18_5_25 (x : float) : (x <? 18.5)%float = true -> (x <? 25)%float = true.
Proof.
  rewrite !FloatAxioms.ltb_spec.
  pose proof Prim2SF_18_5 as H1. pose proof Prim2SF_25 as H2.
  generalize dependent (Prim2SF 18.5). generalize dependent (Prim2SF 25).
  intros ? -> ? ->. apply SFltb_mono. lia.
Qed.

Lemma ltb_25_30 (x : float) : (x <? 25)%float = true -> (x <? 30)%float = true.
Proof.
  rewrite !FloatAxioms.ltb_spec.
  pose proof Prim2SF_25 as H1. pose proof Prim2SF_30 as H2.
  generalize dependent (Prim2SF 25). generalize dependent (Prim2SF 30).
  intros ? -> ? ->. apply SFltb_mono. lia.
Qed.

Lemma bmi_band_intervals (x : float) :
  String.eqb (bmi_band x) "Underweight" = (x <? 18.5)%float
  /\ String.eqb (bmi_band x) "Healthy Weight" = geb x 18.5 && (x <? 25)%float
  /\ String.eqb (bmi_band x) "Overweight" = geb x 25 && (x <? 30)%float
  /\ String.eqb (bmi_band x) "Obesity" = geb x 30 || is_nan x.
Proof.
  unfold bmi_band. destruct (is_nan x) eqn:N.
  - rewrite !(ltb_nan x _ (or_introl N)), !(geb_nan x _ (or_introl N)).
    repeat split.
  - pose proof (ltb_18_5_25 x) as H1. pose proof (ltb_25_30 x) as H2.
    rewrite (ltb_negb_geb x 18.5 N eq_refl) in *.
    rewrite (ltb_negb_geb x 25 N eq_refl) in *.
    rewrite (ltb_negb_geb x 30 N eq_refl) in *.
    destruct (geb x 18.5), (geb x 25), (geb x 30); simpl in *;
      repeat split; try reflexivity;
      try (discriminate (H1 eq_refl)); try (discriminate (H2 eq_refl)).
Qed.

Lemma filter_length_ext {A} (p q : A -> bool) (l : list A) :
  (forall a, p a = q a) -> length (filter p l) = length (filter q l).
Proof.
  intro H. induction l as [|a l IH]; simpl; [reflexivity|].
  rewrite H. destruct (q a); simpl; now rewrite IH.
Qed.

(** The bars of [bmi_histogram] count the values below 18.5, from 18.5 to
    below 25, from 25 to below 30, and from 30 on; a body mass index that is
    missing (NaN) is counted with the last, as obesity. *)
Theorem bmi_bands_are_intervals (xs : vector) :
  count_band "Underweight" xs = length (filter (fun x => (x <? 18.5)%float) xs)
  /\ count_band "Healthy Weight" xs
     = length (filter (fun x => geb x 18.5 && (x <? 25)%float) xs)
  /\ count_band "Overweight" xs
     = length (filter (fun x => geb x 25 && (x <? 30)%float) xs)
  /\ count_band "Obesity" xs
     = length (filter (fun x => geb x 30 || is_nan x) xs).
Proof.
  unfold count_band.
  repeat split; apply filter_length_ext; intro x; apply bmi_band_intervals.
Qed.

(** ** Sums of squares and magnitudes in binary64 *)

Lemma Prim2SF_infinity : Prim2SF infinity = S754_infinity false.
Proof. vm_compute. reflexivity. Qed.

Lemma is_finite_Prim2SF (x : float) : is_finite x = true -> sf_finite (Prim2SF x).
Proof.
  unfold is_finite, is_nan, is_infinity.
  rewrite !FloatAxioms.eqb_spec, FloatAxioms.abs_spec, Prim2SF_infinity.
  unfold SFeqb.
  destruct (Prim2SF x) as [s|s| |s m e]; simpl; try exact (fun _ => I);
    try destruct s; simpl; intro H; try discriminate.
Qed.

Lemma SFsub_diag (a : spec_float) :
  sf_finite a -> SFsub prec emax a a = S754_zero false.
Proof.
  destruct a as [s|s| |s m e]; try contradiction; intros _.
  - destruct s; reflexivity.
  - unfold SFsub. cbv zeta.
    match goal with
    | |- binary_normalize _ _ ?d _ _ = _ =>
        replace d with 0%Z by (symmetry; apply Z.sub_diag)
    end.
    reflexivity.
Qed.

Lemma sub_diag (x : float) : is_finite x = true -> (x - x)%float = 0%float.
Proof.
  intro H. apply Prim2SF_inj. rewrite FloatAxioms.sub_spec.
  unfold SF64sub. rewrite (SFsub_diag _ (is_finite_Prim2SF x H)). reflexivity.
Qed.

Lemma abs_opp (x : float) : abs (- x) = abs x.
Proof.
  apply Prim2SF_inj. rewrite !FloatAxioms.abs_spec, FloatAxioms.opp_spec.
  destruct (Prim2SF x); reflexivity.
Qed.

Lemma sf_finite_is_finite (x : float) : sf_finite (Prim2SF x) -> is_finite x = true.
Proof.
  unfold is_finite, is_nan, is_infinity.
  rewrite !FloatAxioms.eqb_spec, FloatAxioms.abs_spec, Prim2SF_infinity.
  unfold SFeqb.
  destruct (Prim2SF x) as [s|s| |s m e]; simpl; try contradiction; intros _;
    try reflexivity.
  rewrite Z.compare_refl.
  change (PosDef.Pos.compare_cont Eq m m) with (Pos.compare m m).
  rewrite Pos.compare_refl. destruct s; reflexivity.
Qed.

Lemma abs_finite (x : float) : is_finite x = true -> is_finite (abs x) = true.
Proof.
  intro H. apply sf_finite_is_finite. rewrite FloatAxioms.abs_spec.
  pose proof (is_finite_Prim2SF x H) as F.
  destruct (Prim2SF x); simpl in *; auto.
Qed.

Lemma square_sub_diag (y : vector) :
  Forall (fun v => is_finite v = true) y ->
  Forall (fun t => t = 0%float) (square (zip_with PrimFloat.sub y y)).
Proof.
  unfold square. induction 1 as [|v y Hv _ IH]; [constructor|].
  cbn [zip_with map]. constructor; [|exact IH].
  rewrite (sub_diag v Hv). reflexivity.
Qed.

(** A model that predicts every label exactly has a sum of squared errors of
    exactly zero, as long as the labels are finite numbers. *)
Theorem get_sse_perfect_fit
    (add_constant : has_constant -> DataFrame -> DataFrame)
    (m : model) (features : DataFrame) (labels : vector)
    (f : DataFrame -> answer vector) (w : log) :
  let X := if isinstance m [RegressionResultsWrapper]
           then add_constant HasConstantAdd features else features in
  predict_method m = Some f ->
  f X = Ok labels ->
  Forall (fun v => is_finite v = true) labels ->
  get_sse add_constant m features labels w = (Returns 0%float, w ++ [EvPredict X]).
Proof.
  intros X Hf Hp Hfin.
  rewrite (get_sse_returns add_constant m features labels f labels w Hf Hp eq_refl).
  do 2 f_equal.
  apply (np_sum_preserves (fun t => t = 0%float) eq_refl).
  - intros x y -> ->. reflexivity.
  - intros x Hx _. exact (proj1 (Forall_forall _ _) (square_sub_diag labels Hfin) x Hx).
Qed.

Lemma get_sse_perfect_fit_witness :
  get_sse sm_add_constant (fitted LinearRegression [1; 2; 4]%float nan) X3
          [1; 2; 4]%float [] = (Returns 0%float, [EvPredict X3]).
Proof.
  apply (get_sse_perfect_fit sm_add_constant (fitted LinearRegression [1; 2; 4]%float nan)
           X3 [1; 2; 4]%float (fun _ => Ok [1; 2; 4]%float) [] eq_refl eq_refl).
  repeat constructor.
Defined.

Lemma np_sum_square_nonneg (diff : vector) :
  sf_nonneg (Prim2SF (np_sum (square diff))).
Proof.
  apply (np_sum_preserves (fun t => sf_nonneg (Prim2SF t)) eq_refl add_nonneg).
  intros x Hx _. exact (proj1 (Forall_forall _ _) (square_nonneg diff) x Hx).
Qed.

(** On float64 labels and predictions, whatever the model predicts, the sum
    of squared errors that [get_sse] returns is never below zero.  (On int64
    data it can be: the squares wrap around.) *)
Theorem get_sse_never_negative
    (add_constant : has_constant -> DataFrame -> DataFrame)
    (m : model) (features : DataFrame) (labels : vector) (w w' : log) (sse : float) :
  (get_sse add_constant m features labels w = (Returns sse, w') ->
   (sse <? 0)%float = false)
  /\ (exists (c : classifier) (classes : list Z) (z : Z),
        fst (get_sse_int64 add_constant c features classes w) = Returns z
        /\ (z < 0)%Z).
Proof.
  split;
    [| exists (fitted_classifier LogisticRegression [3037000500]%Z), [0%Z],
         (-9223372036709301616)%Z;
       split; [destruct (add_constant HasConstantAdd features) | ];
       reflexivity].
  intro Hrun. apply nonneg_not_negative.
  destruct (predict_method m) as [f|] eqn:Hf.
  - pose proof (get_sse_with_predict add_constant m features labels f w Hf) as H.
    rewrite Hrun in H. cbn [fst] in H.
    destruct (f _) as [y_pred|what]; [|discriminate].
    destruct (elementwise PrimFloat.sub labels y_pred) as [diff|what]; [|discriminate].
    injection H as ->. apply np_sum_square_nonneg.
  - unfold get_sse, hasattr_predict in Hrun. rewrite Hf in Hrun. discriminate.
Qed.

Lemma get_sse_never_negative_witness :
  (1 <? 0)%float = false.
Proof.
  exact (proj1 (get_sse_never_negative sm_add_constant
                  (fitted LinearRegression [1; 2; 4]%float nan) X3 [1; 2; 3]%float
                  [] [EvPredict X3] 1%float) eq_refl).
Defined.

Lemma combine_fst_snd {A B} (l : list (A * B)) :
  combine (map fst l) (map snd l) = l.
Proof.
  induction l as [|[a b] l IH]; [reflexivity|]. cbn [map combine fst snd]. now rewrite IH.
Qed.

Lemma filter_map {A B} (p : B -> bool) (g : A -> B) (l : list A) :
  filter p (map g l) = map g (filter (fun x => p (g x)) l).
Proof.
  induction l as [|x l IH]; [reflexivity|]. cbn [map filter].
  destruct (p (g x)); cbn [map]; now rewrite IH.
Qed.

(** The labels being a Series, a row whose label or prediction is missing,
    so that its squared difference is NaN, is left out of the sum: with
    fewer than eight rows [get_sse] returns the sum of the squared
    differences of the other rows. *)
Theorem get_sse_leaves_out_missing_rows
    (add_constant : has_constant -> DataFrame -> DataFrame)
    (m : model) (features : DataFrame) (labels : vector)
    (f : DataFrame -> answer vector) (y_pred : vector) (w : log) :
  let X := if isinstance m [RegressionResultsWrapper]
           then add_constant HasConstantAdd features else features in
  let rows := complete_rows labels y_pred in
  predict_method m = Some f ->
  f X = Ok y_pred ->
  length labels = length y_pred ->
  length labels < 8 ->
  get_sse add_constant m features labels w =
    (Returns (sum_of_squared_differences (map fst rows) (map snd rows)),
     w ++ [EvPredict X]).
Proof.
  intros X rows Hf Hp Hlen Hsmall.
  rewrite (get_sse_returns add_constant m features labels f y_pred w Hf Hp Hlen).
  do 2 f_equal.
  rewrite np_sum_small.
  - unfold sum_of_squared_differences. rewrite combine_fst_snd.
    unfold rows, complete_rows, square.
    rewrite zip_with_combine, map_map, filter_map, fold_left_map. reflexivity.
  - unfold square. rewrite length_map, zip_with_length; assumption.
  - apply square_nonneg.
Qed.

Lemma get_sse_leaves_out_missing_rows_witness :
  get_sse sm_add_constant (fitted LinearRegression [1; 2; 4]%float nan) X3
          [1; nan; 3]%float [] = (Returns 1%float, [EvPredict X3]).
Proof.
  exact (get_sse_leaves_out_missing_rows sm_add_constant
           (fitted LinearRegression [1; 2; 4]%float nan) X3 [1; nan; 3]%float
           (fun _ => Ok [1; 2; 4]%float) [1; 2; 4]%float []
           eq_refl eq_refl eq_refl ltac:(repeat constructor)).
Defined.

(** ** Residuals see magnitudes only *)

Lemma residuals_of_opposite_predictions (labels y_pred : vector) :
  map (fun r => (abs (fst r) - abs (snd r))%float) (combine labels (map PrimFloat.opp y_pred))
  = map (fun r => (abs (fst r) - abs (snd r))%float) (combine labels y_pred).
Proof.
  revert y_pred. induction labels as [|a labels IH]; intros [|p y_pred];
    try reflexivity.
  cbn [map combine fst snd]. now rewrite abs_opp, IH.
Qed.

(** The residual compares magnitudes: a model whose predictions are those of
    another with the sign flipped gets the very same residuals. *)
Theorem calculate_residuals_ignores_sign (m m' : model) (features : DataFrame)
    (labels : vector) (f f' : DataFrame -> answer vector) (y_pred : vector) (w : log) :
  predict_method m = Some f -> f features = Ok y_pred ->
  predict_method m' = Some f' -> f' features = Ok (map PrimFloat.opp y_pred) ->
  length labels = length y_pred ->
  exists records records',
    calculate_residuals m features labels w = (Returns records, w ++ [EvPredict features])
    /\ calculate_residuals m' features labels w
       = (Returns records', w ++ [EvPredict features])
    /\ map Residuals records' = map Residuals records.
Proof.
  intros Hf Hp Hf' Hp' Hlen.
  assert (Hlen' : length labels = length (map PrimFloat.opp y_pred))
    by now rewrite length_map.
  do 2 eexists. split; [|split].
  - apply (calculate_residuals_returns m features labels f y_pred w Hf Hp Hlen).
  - apply (calculate_residuals_returns m' features labels f' _ w Hf' Hp' Hlen').
  - rewrite !map_map. cbn [Residuals]. apply residuals_of_opposite_predictions.
Qed.

Lemma calculate_residuals_ignores_sign_witness :
  exists records records',
    calculate_residuals (fitted LinearRegression [1; 2; 4]%float nan) X3
      [1; 2; 3]%float [] = (Returns records, [EvPredict X3])
    /\ calculate_residuals (fitted LinearRegression [-1; -2; -4]%float nan) X3
         [1; 2; 3]%float [] = (Returns records', [EvPredict X3])
    /\ map Residuals records' = map Residuals records.
Proof.
  exact (calculate_residuals_ignores_sign
           (fitted LinearRegression [1; 2; 4]%float nan)
           (fitted LinearRegression [-1; -2; -4]%float nan) X3 [1; 2; 3]%float
           (fun _ => Ok [1; 2; 4]%float) (fun _ => Ok [-1; -2; -4]%float)
           [1; 2; 4]%float [] eq_refl eq_refl eq_refl eq_refl eq_refl).
Defined.

Lemma residual_of_opposite (a : float) :
  is_finite a = true -> (abs a - abs (- a))%float = 0%float.
Proof. intro H. rewrite abs_opp. apply sub_diag, abs_finite, H. Qed.

(** A prediction with the right magnitude and the wrong sign has residual
    zero: for finite labels, a model that predicts the opposite of every label
    gets residuals that are all exactly zero. *)
Theorem calculate_residuals_zero_for_opposite (m : model) (features : DataFrame)
    (labels : vector) (f : DataFrame -> answer vector) (w : log) :
  predict_method m = Some f ->
  f features = Ok (map PrimFloat.opp labels) ->
  Forall (fun v => is_finite v = true) labels ->
  exists records,
    calculate_residuals m features labels w = (Returns records, w ++ [EvPredict features])
    /\ length records = length labels
    /\ Forall (fun r => Residuals r = 0%float) records.
Proof.
  intros Hf Hp Hfin.
  assert (Hlen : length labels = length (map PrimFloat.opp labels))
    by now rewrite length_map.
  eexists. split; [|split].
  - apply (calculate_residuals_returns m features labels f _ w Hf Hp Hlen).
  - rewrite length_map, length_combine, length_map. apply Nat.min_id.
  - clear Hf Hp Hlen. induction Hfin as [|a labels Ha _ IH]; [constructor|].
    cbn [map combine]. constructor; [|exact IH].
    cbn [Residuals fst snd]. apply residual_of_opposite, Ha.
Qed.

Lemma calculate_residuals_zero_for_opposite_witness :
  exists records,
    calculate_residuals (fitted LinearRegression [-1; -2; -3]%float nan) X3
      [1; 2; 3]%float [] = (Returns records, [EvPredict X3])
    /\ length records = 3
    /\ Forall (fun r => Residuals r = 0%float) records.
Proof.
  apply (calculate_residuals_zero_for_opposite
           (fitted LinearRegression [-1; -2; -3]%float nan) X3 [1; 2; 3]%float
           (fun _ => Ok [-1; -2; -3]%float) [] eq_refl eq_refl).
  repeat constructor.
Defined.

Lemma predict_without_method (m : model) (X : DataFrame) (w : log) :
  predict_method m = None ->
  predict m X w = (Raises (LibraryError "AttributeError: predict"), w).
Proof. unfold predict. intros ->. reflexivity. Qed.

Lemma predict_raises (m : model) (X : DataFrame) (f : DataFrame -> answer vector)
    (what : string) (w : log) :
  predict_method m = Some f -> f X = Fails what ->
  predict m X w = (Raises (LibraryError what), w ++ [EvPredict X]).
Proof. unfold predict, call. intros -> ->. reflexivity. Qed.

(** [calculate_residuals] has no guard of its own: without a [predict] method
    the AttributeError of the call comes out (where [get_sse] raises its
    ValueError), and an exception of [predict] comes out as it is, after the
    call has been made. *)
Theorem calculate_residuals_errors (m : model) (features : DataFrame)
    (labels : vector) (w : log) :
  (predict_method m = None ->
   calculate_residuals m features labels w
   = (Raises (LibraryError "AttributeError: predict"), w))
  /\ (forall f what, predict_method m = Some f -> f features = Fails what ->
      calculate_residuals m features labels w
      = (Raises (LibraryError what), w ++ [EvPredict features])).
Proof.
  unfold calculate_residuals. split.
  - intro Hn. apply (bind_raises _ _ _ _ _ (predict_without_method m features w Hn)).
  - intros f what Hf Hp.
    apply (bind_raises _ _ _ _ _ (predict_raises m features f what w Hf Hp)).
Qed.

Lemma calculate_residuals_errors_witness :
  calculate_residuals no_predict X3 [1; 2; 3]%float []
  = (Raises (LibraryError "AttributeError: predict"), [])
  /\ calculate_residuals (unfitted Ridge) X3 [1; 2; 3]%float []
     = (Raises (LibraryError "NotFittedError"), [EvPredict X3]).
Proof.
  split.
  - apply (proj1 (calculate_residuals_errors no_predict X3 [1; 2; 3]%float [])).
    reflexivity.
  - apply (proj2 (calculate_residuals_errors (unfitted Ridge) X3 [1; 2; 3]%float [])
             (fun _ => Fails "NotFittedError") "NotFittedError" eq_refl eq_refl).
Defined.

(** ** More on the assumption checks *)

Section MoreOnChecks.

Variable add_constant : has_constant -> DataFrame -> DataFrame.
Variable normal_ad : vector -> answer (float * float).
Variable corr : DataFrame -> answer matrix.
Variable show : figure -> answer unit.
Variable independence_of_errors_assumption :
  model -> DataFrame -> vector -> bool -> M (option string * float).
Variable equal_variance_assumption :
  model -> DataFrame -> vector -> float -> bool -> M (string * float).




(** A p-value of the Anderson-Darling test that is NaN, or a threshold that
    is NaN, always gives the type "non-normal". *)
Theorem normality_of_errors_nan (m : model) (features : DataFrame) (labels : vector)
    (p_value_thresh : float) (plot : bool) (w w1 : log)
    (df_results : list residual_record) (ad2 p_value : float) :
  calculate_residuals m features labels w = (Returns df_results, w1) ->
  (plot = true -> show (ResidualHistogram (map Residuals df_results)) = Ok tt) ->
  normal_ad (map Residuals df_results) = Ok (ad2, p_value) ->
  is_nan p_value = true \/ is_nan p_value_thresh = true ->
  fst (normality_of_errors_assumption normal_ad show m features labels
         p_value_thresh plot w) = Returns ("non-normal", p_value).
Proof.
  intros Hres Hshow Had Hnan.
  rewrite (normality_of_errors_assumption_returns normal_ad show m features labels
             p_value_thresh plot w w1 df_results ad2 p_value Hres Hshow Had).
  cbn [fst]. now rewrite (geb_nan _ _ Hnan).
Qed.

(** What [are_assumptions_satisfied_linear] returns comes from the results of
    its five checks. *)
Lemma are_assumptions_satisfied_linear_inv (m : model) (features : DataFrame)
    (labels : vector) (p_value_thresh : float) (w w' : log) (v : py_value) :
  are_assumptions_satisfied_linear add_constant normal_ad corr show
    independence_of_errors_assumption equal_variance_assumption
    m features labels p_value_thresh w = (Returns v, w') ->
  exists lin w1 ind nor equ col,
    linear_assumption show m (add_constant HasConstantSkip features) labels
      p_value_thresh false w = (Returns lin, w1)
    /\ v = first_failure (assumption_reports lin ind nor equ col).
Proof.
  unfold are_assumptions_satisfied_linear. intro H.
  unfold bind at 1 in H.
  destruct (linear_assumption show m _ labels p_value_thresh false w)
    as [[lin|e] w1]; [|discriminate].
  unfold bind at 1 in H.
  destruct (independence_of_errors_assumption m _ labels false w1)
    as [[ind|e] w2]; [|discriminate].
  unfold bind at 1 in H.
  destruct (normality_of_errors_assumption normal_ad show m _ labels
              p_value_thresh false w2) as [[nor|e] w3]; [|discriminate].
  unfold bind at 1 in H.
  destruct (equal_variance_assumption m _ labels p_value_thresh false w3)
    as [[equ|e] w4]; [|discriminate].
  unfold bind at 1 in H.
  destruct (perfect_collinearity_assumption corr show features false w4)
    as [[col|e] w5]; [|discriminate].
  rewrite verdict_is_first_failure in H. injection H as <- _.
  exists lin, w1, ind, nor, equ, col. split; reflexivity.
Qed.

(** [are_assumptions_satisfied_linear] never returns [False]: it returns
    [True] or one of five reasons, and the reason of the normality or of the
    variance check ends with a distribution type other than the expected
    one. *)
Theorem are_assumptions_satisfied_linear_values (m : model) (features : DataFrame)
    (labels : vector) (p_value_thresh : float) (w w' : log) (v : py_value) :
  are_assumptions_satisfied_linear add_constant normal_ad corr show
    independence_of_errors_assumption equal_variance_assumption
    m features labels p_value_thresh w = (Returns v, w') ->
  v = PyBool true
  \/ v = PyStr "Linearity assumption is not satisfied."
  \/ v = PyStr "Independence of errors (no autocorrelation) assumption is not satisfied."
  \/ (exists dist_type, dist_type <> "normal" /\
        v = PyStr ("Normality of errors assumption is not satisfied. Distribution type: "
                   ++ dist_type))
  \/ (exists dist_type, dist_type <> "equal" /\
        v = PyStr ("Equal variance (homoscedasticity) assumption is not satisfied. Distribution type: "
                   ++ dist_type))
  \/ v = PyStr "Perfect collinearity assumption is not satisfied.".
Proof.
  intro H.
  destruct (are_assumptions_satisfied_linear_inv m features labels p_value_thresh
              w w' v H) as [lin [w1 [ind [nor [equ [col [_ ->]]]]]]].
  unfold first_failure, assumption_reports.
  destruct lin as [[|] p1]; cbn [fst snd negb find]; [|tauto].
  destruct ind as [[a|] dw]; cbn [fst snd negb find]; [tauto|].
  destruct (String.eqb_spec (fst nor) "normal") as [_|Hn]; cbn [fst snd negb find].
  2: { right; right; right; left. exists (fst nor). split; [exact Hn | reflexivity]. }
  destruct (String.eqb_spec (fst equ) "equal") as [_|He]; cbn [fst snd negb find].
  2: { right; right; right; right; left. exists (fst equ).
       split; [exact He | reflexivity]. }
  destruct col; cbn [fst snd negb find]; tauto.
Qed.

Lemma linear_assumption_not_wrapper (m : model) (X : DataFrame) (y : vector)
    (t : float) (plot : bool) (w w1 : log) (lin : bool * option float) :
  isinstance m [RegressionResultsWrapper] = false ->
  linear_assumption show m X y t plot w = (Returns lin, w1) ->
  lin = (true, None).
Proof.
  intros Hi. unfold linear_assumption, bind. rewrite Hi.
  destruct (calculate_residuals m X y w) as [[df|e] w0]; [|discriminate].
  destruct (when plot _ w0) as [[[]|e] w2]; [|discriminate].
  unfold ret. now intros [= <- _].
Qed.

(** For a model that is not a statsmodels results wrapper (a scikit-learn
    LinearRegression, say), [are_assumptions_satisfied_linear] never reports
    the linearity assumption as the one that fails. *)
Theorem linearity_never_fails_without_wrapper (m : model) (features : DataFrame)
    (labels : vector) (p_value_thresh : float) (w w' : log) (v : py_value) :
  isinstance m [RegressionResultsWrapper] = false ->
  are_assumptions_satisfied_linear add_constant normal_ad corr show
    independence_of_errors_assumption equal_variance_assumption
    m features labels p_value_thresh w = (Returns v, w') ->
  v <> PyStr "Linearity assumption is not satisfied.".
Proof.
  intros Hi H.
  destruct (are_assumptions_satisfied_linear_inv m features labels p_value_thresh
              w w' v H) as [lin [w1 [ind [nor [equ [col [Hlin ->]]]]]]].
  rewrite (linear_assumption_not_wrapper m _ labels p_value_thresh false w w1 lin
             Hi Hlin).
  unfold first_failure, assumption_reports. cbn [fst snd negb find].
  destruct ind as [[a|] dw]; cbn [fst snd negb find]; [discriminate|].
  destruct (String.eqb (fst nor) "normal"); cbn [fst snd negb find];
    [|discriminate].
  destruct (String.eqb (fst equ) "equal"); cbn [fst snd negb find];
    [|discriminate].
  destruct col; discriminate.
Qed.

End MoreOnChecks.


Lemma normality_of_errors_nan_witness :
  fst (normality_of_errors_assumption (mock_normal_ad 2.5 nan) mock_show
         ols_significant X3 [1; 2; 3]%float 0.05%float false [])
  = Returns ("non-normal", nan).
Proof.
  eapply (normality_of_errors_nan (mock_normal_ad 2.5 nan) mock_show ols_significant
            X3 [1; 2; 3]%float 0.05%float false [] _ _ 2.5%float nan).
  - lazy. reflexivity.
  - discriminate.
  - reflexivity.
  - left. reflexivity.
Defined.

Lemma are_assumptions_satisfied_linear_values_witness :
  PyStr "Linearity assumption is not satisfied." = PyBool true
  \/ PyStr "Linearity assumption is not satisfied."
     = PyStr "Linearity assumption is not satisfied."
  \/ PyStr "Linearity assumption is not satisfied."
     = PyStr "Independence of errors (no autocorrelation) assumption is not satisfied."
  \/ (exists dist_type, dist_type <> "normal" /\
        PyStr "Linearity assumption is not satisfied."
        = PyStr ("Normality of errors assumption is not satisfied. Distribution type: "
                 ++ dist_type))
  \/ (exists dist_type, dist_type <> "equal" /\
        PyStr "Linearity assumption is not satisfied."
        = PyStr ("Equal variance (homoscedasticity) assumption is not satisfied. Distribution type: "
                 ++ dist_type))
  \/ PyStr "Linearity assumption is not satisfied."
     = PyStr "Perfect collinearity assumption is not satisfied.".
Proof.
  apply (are_assumptions_satisfied_linear_values sm_add_constant
           (mock_normal_ad 2.5 0.01) pandas_corr mock_show
           (mock_independence (Some "positive") 0.8)
           (mock_equal_variance "unequal" 0.01) ols_not_significant X3
           [1; 2; 3]%float 0.05%float [] log_of_five_checks).
  reflexivity.
Defined.

Lemma linearity_never_fails_without_wrapper_witness :
  PyStr "Independence of errors (no autocorrelation) assumption is not satisfied."
  <> PyStr "Linearity assumption is not satisfied.".
Proof.
  apply (linearity_never_fails_without_wrapper sm_add_constant
           (mock_normal_ad 2.5 0.01) pandas_corr mock_show
           (mock_independence (Some "positive") 0.8)
           (mock_equal_variance "unequal" 0.01) linear_model X3
           [1; 2; 3]%float 0.05%float [] log_of_five_checks).
  - reflexivity.
  - reflexivity.
Defined.

(** ** Order of the tests in the dispatcher *)

(** [check_model_assumptions] tests the classes in a fixed order, and the
    first test that holds decides: an instance of LinearRegression or of the
    results wrapper goes to the linear checks even when it also is a Ridge, a
    Lasso or a LogisticRegression; otherwise a Ridge or a Lasso goes to the
    ridge/lasso checks even when it also is a LogisticRegression; the
    unsupported branch is taken exactly by the instances of none of the five
    classes. *)
Theorem check_model_assumptions_precedence
    (add_constant : has_constant -> DataFrame -> DataFrame)
    (normal_ad : vector -> answer (float * float))
    (corr : DataFrame -> answer matrix) (show : figure -> answer unit)
    (independence_of_errors_assumption :
       model -> DataFrame -> vector -> bool -> M (option string * float))
    (equal_variance_assumption :
       model -> DataFrame -> vector -> float -> bool -> M (string * float))
    (are_assumptions_satisfied_ridge_lasso are_assumptions_satisfied_logistic :
       model -> DataFrame -> vector -> float -> M py_value)
    (m : model) (features : DataFrame) (labels : vector) (p_value_thresh : float) :
  let check :=
    check_model_assumptions add_constant normal_ad corr show
      independence_of_errors_assumption equal_variance_assumption
      are_assumptions_satisfied_ridge_lasso are_assumptions_satisfied_logistic
      m features labels p_value_thresh in
  let linear :=
    instance_of m LinearRegression || instance_of m RegressionResultsWrapper in
  let ridge_lasso := instance_of m Ridge || instance_of m Lasso in
  (linear = true ->
   check = are_assumptions_satisfied_linear add_constant normal_ad corr show
             independence_of_errors_assumption equal_variance_assumption
             m features labels p_value_thresh)
  /\ (linear = false -> ridge_lasso = true ->
      check = are_assumptions_satisfied_ridge_lasso m features labels p_value_thresh)
  /\ (linear = false -> ridge_lasso = false ->
      instance_of m LogisticRegression = true ->
      check = are_assumptions_satisfied_logistic m features labels p_value_thresh)
  /\ (route m = UnsupportedPath <-> forall c, instance_of m c = false).
Proof.
  intros check linear ridge_lasso.
  unfold check, check_model_assumptions, route, isinstance. cbn [existsb].
  rewrite !orb_false_r. fold linear. fold ridge_lasso.
  repeat split.
  - intros ->. reflexivity.
  - intros -> ->. reflexivity.
  - intros -> -> ->. reflexivity.
  - unfold linear, ridge_lasso.
    destruct (instance_of m LinearRegression) eqn:E1; [discriminate|].
    destruct (instance_of m RegressionResultsWrapper) eqn:E2; [discriminate|].
    destruct (instance_of m Ridge) eqn:E3; [discriminate|].
    destruct (instance_of m Lasso) eqn:E4; [discriminate|].
    destruct (instance_of m LogisticRegression) eqn:E5; [discriminate|].
    intros _ c. destruct c; assumption.
  - intro H. unfold linear, ridge_lasso. rewrite !H. reflexivity.
Qed.

Lemma check_model_assumptions_precedence_witness :
  patched_check_model_assumptions
    (instance_of_all [Lasso; LinearRegression] [1; 2; 4]%float) X3
    [1; 2; 3]%float 0.05%float
  = are_assumptions_satisfied_linear sm_add_constant (mock_normal_ad 0.2 0.6)
      pandas_corr mock_show (mock_independence None 2)
      (mock_equal_variance "equal" 0.3)
      (instance_of_all [Lasso; LinearRegression] [1; 2; 4]%float) X3
      [1; 2; 3]%float 0.05%float.
Proof.
  apply (proj1 (check_model_assumptions_precedence sm_add_constant
                  (mock_normal_ad 0.2 0.6) pandas_corr mock_show
                  (mock_independence None 2) (mock_equal_variance "equal" 0.3)
                  (mock_handler "are_assumptions_satisfied_ridge_lasso")
                  (mock_handler "are_assumptions_satisfied_logistic")
                  (instance_of_all [Lasso; LinearRegression] [1; 2; 4]%float) X3
                  [1; 2; 3]%float 0.05%float)).
  reflexivity.
Defined.

(** ** Evaluation report *)

Section Evaluation.

Variable add_constant : has_constant -> DataFrame -> DataFrame.
Variable r2_score : vector -> vector -> answer float.
Variable print : string -> M unit.
Variable str_of_float : float -> string.
Variable get_rmse : model -> DataFrame -> vector -> M float.
Variable get_rsquared_adj : model -> DataFrame -> vector -> M float.

(** For a model without a [predict] method, [evaluate_model] raises the
    "unsupported model type" error of the SSE; no other metric is computed,
    no library is called and nothing is printed. *)
Theorem evaluate_model_without_predict (m : model) (name : string)
    (features : DataFrame) (labels : vector) (w : log) :
  hasattr_predict m = false ->
  evaluate_model add_constant r2_score print str_of_float get_rmse get_rsquared_adj
    m name features labels w
  = (Raises (ValueError "Unsupported model type for SSE calculation."), w).
Proof.
  intro H. unfold evaluate_model.
  apply bind_raises. unfold get_sse. rewrite H. reflexivity.
Qed.

(** [evaluate_model] computes the four metrics before it prints anything:
    when they all return, the model's name and the four values are printed in
    the order SSE, RMSE, R², adjusted R²; when one of them raises, the
    exception comes out and nothing has been printed. *)
Theorem evaluate_model_prints_last (m : model) (name : string)
    (features : DataFrame) (labels : vector) (w : log) :
  let run :=
    evaluate_model add_constant r2_score print str_of_float get_rmse
      get_rsquared_adj m name features labels in
  let metrics :=
    sse <- get_sse add_constant m features labels ;;
    rmse <- get_rmse m features labels ;;
    rsquared <- get_rsquared add_constant r2_score m features labels ;;
    rsquared_adj <- get_rsquared_adj m features labels ;;
    ret (sse, rmse, rsquared, rsquared_adj) in
  (forall sse rmse rsquared rsquared_adj w',
      metrics w = (Returns (sse, rmse, rsquared, rsquared_adj), w') ->
      run w =
        (print (name ++ " Model:") ;;;
         print ("SSE: " ++ str_of_float sse) ;;;
         print ("RMSE: " ++ str_of_float rmse) ;;;
         print ("R²: " ++ str_of_float rsquared) ;;;
         print ("R² adj : " ++ str_of_float rsquared_adj
                ++ String (Ascii.ascii_of_nat 10) "")) w')
  /\ (forall e w', metrics w = (Raises e, w') -> run w = (Raises e, w')).
Proof.
  intros run metrics.
  assert (Heq : run w =
                bind metrics
                  (fun r =>
                     let '(sse, rmse, rsquared, rsquared_adj) := r in
                     print (name ++ " Model:") ;;;
                     print ("SSE: " ++ str_of_float sse) ;;;
                     print ("RMSE: " ++ str_of_float rmse) ;;;
                     print ("R²: " ++ str_of_float rsquared) ;;;
                     print ("R² adj : " ++ str_of_float rsquared_adj
                            ++ String (Ascii.ascii_of_nat 10) "")) w).
  { unfold run, metrics, evaluate_model.
    do 4 (rewrite bind_assoc; apply bind_cong; intros ? ?).
    reflexivity. }
  split.
  - intros sse rmse rsquared rsquared_adj w' H. rewrite Heq.
    now rewrite (bind_returns _ _ _ _ _ H).
  - intros e w' H. rewrite Heq. apply (bind_raises _ _ _ _ _ H).
Qed.

End Evaluation.

Lemma evaluate_model_without_predict_witness :
  evaluate_model sm_add_constant (mock_r2_score 1) mock_print (fun _ => "1.0")
    (mock_metric 1) (mock_metric 1) no_predict "Lasso" X3 [1; 2; 3]%float []
  = (Raises (ValueError "Unsupported model type for SSE calculation."), []).
Proof. apply evaluate_model_without_predict. reflexivity. Defined.

Lemma evaluate_model_prints_last_witness :
  evaluate_model sm_add_constant (mock_r2_score 1) mock_print (fun _ => "1.0")
    (mock_metric 1) (mock_metric 1) (unfitted Lasso) "Lasso" X3 [1; 2; 3]%float []
  = (Raises (LibraryError "NotFittedError"), [EvPredict X3]).
Proof.
  apply (proj2 (evaluate_model_prints_last sm_add_constant (mock_r2_score 1)
                  mock_print (fun _ => "1.0") (mock_metric 1) (mock_metric 1)
                  (unfitted Lasso) "Lasso" X3 [1; 2; 3]%float [])).
  reflexivity.
Defined.

(** ** Variance inflation factors *)

Lemma for_each_calls {A} (ev : event) (f : nat -> answer A) (g : nat -> A)
    (l : list nat) (w : log) :
  (forall i, In i l -> f i = Ok (g i)) ->
  for_each (fun i => call ev (f i)) l w
  = (Returns (map g l), w ++ repeat ev (length l)).
Proof.
  revert w. induction l as [|i l IH]; intros w H.
  - simpl. unfold ret. now rewrite app_nil_r.
  - cbn [for_each]. unfold bind at 1, call at 1.
    rewrite (H i (or_introl eq_refl)). cbn [from_library].
    unfold bind. rewrite IH by (intros j Hj; apply H; now right).
    unfold ret. cbn [map length repeat]. now rewrite <- app_assoc.
Qed.

Lemma for_each_first_failure {A} (ev : event) (f : nat -> answer A) (g : nat -> A)
    (before after : list nat) (i : nat) (what : string) (w : log) :
  (forall j, In j before -> f j = Ok (g j)) ->
  f i = Fails what ->
  for_each (fun j => call ev (f j)) (before ++ i :: after) w
  = (Raises (LibraryError what), w ++ repeat ev (S (length before))).
Proof.
  revert w. induction before as [|j before IH]; intros w H Hi.
  - cbn [app for_each]. unfold bind, call. rewrite Hi. reflexivity.
  - cbn [app for_each]. unfold bind at 1, call at 1.
    rewrite (H j (or_introl eq_refl)). cbn [from_library].
    unfold bind. rewrite IH by (try (intros k Hk; apply H; now right); exact Hi).
    cbn [length repeat]. now rewrite <- app_assoc.
Qed.

(** [calculate_vif] gives one row per column of the frame with the constant
    added: the first row is the constant's, and the feature at position [j]
    of the given frame comes at position [j + 1], with the factor computed at
    index [j + 1].  The factors are computed left to right. *)
Theorem calculate_vif_rows
    (add_constant : has_constant -> DataFrame -> DataFrame)
    (variance_inflation_factor : DataFrame -> nat -> answer float)
    (x_train : DataFrame) (ones : list cell) (vif : nat -> float) (w : log) :
  let x_train_with_const := add_constant HasConstantAdd x_train in
  let n := length (columns x_train) in
  columns x_train_with_const = ("const", ones) :: columns x_train ->
  (forall i, i <= n -> variance_inflation_factor x_train_with_const i = Ok (vif i)) ->
  calculate_vif add_constant variance_inflation_factor x_train w
  = (Returns (("const", vif 0)
              :: combine (map fst (columns x_train)) (map vif (seq 1 n))),
     w ++ repeat (EvCall "variance_inflation_factor") (S n))
  /\ (forall j name col,
        nth_error (columns x_train) j = Some (name, col) ->
        nth_error (combine (map fst (columns x_train)) (map vif (seq 1 n))) j
        = Some (name, vif (S j))).
Proof.
  intros X n Hcols Hvif. split.
  - unfold calculate_vif. fold X. rewrite Hcols. cbn [length]. fold n.
    assert (Hall : forall i, In i (seq 0 (S n)) ->
                   variance_inflation_factor X i = Ok (vif i)).
    { intros i Hi. apply Hvif. apply in_seq in Hi. lia. }
    rewrite (bind_returns _ _ w _ _
               (for_each_calls (EvCall "variance_inflation_factor")
                  (variance_inflation_factor X) vif (seq 0 (S n)) w Hall)).
    rewrite length_seq. reflexivity.
  - intros j name col Hj.
    assert (Hlt : j < n) by (apply nth_error_Some; rewrite Hj; discriminate).
    apply nth_error_combine.
    + rewrite nth_error_map, Hj. reflexivity.
    + rewrite nth_error_map, nth_error_seq.
      destruct (Nat.ltb_spec j n); [reflexivity | lia].
Qed.

Lemma calculate_vif_rows_witness :
  calculate_vif sm_add_constant mock_vif X3 []
  = (Returns [("const", 1%float); ("Age", 2%float); ("BMI", 3%float)],
     repeat (EvCall "variance_inflation_factor") 3).
Proof.
  exact (proj1 (calculate_vif_rows sm_add_constant mock_vif X3
                  (repeat (Num 1%float) 3) (fun i => float_of_nat (S i)) []
                  eq_refl (fun i _ => eq_refl))).
Defined.

(** When the factor of one column cannot be computed, [calculate_vif] raises
    at that column: the columns before it have been computed, those after it
    are not, and no table is returned. *)
Theorem calculate_vif_stops_at_first_failure
    (add_constant : has_constant -> DataFrame -> DataFrame)
    (variance_inflation_factor : DataFrame -> nat -> answer float)
    (x_train : DataFrame) (vif : nat -> float) (i : nat) (what : string) (w : log) :
  let x_train_with_const := add_constant HasConstantAdd x_train in
  i < length (columns x_train_with_const) ->
  (forall j, j < i -> variance_inflation_factor x_train_with_const j = Ok (vif j)) ->
  variance_inflation_factor x_train_with_const i = Fails what ->
  calculate_vif add_constant variance_inflation_factor x_train w
  = (Raises (LibraryError what),
     w ++ repeat (EvCall "variance_inflation_factor") (S i)).
Proof.
  intros X Hi Hbefore Hfail. unfold calculate_vif. fold X.
  set (n := length (columns X)) in *.
  assert (Hsplit : seq 0 n = seq 0 i ++ i :: seq (S i) (n - S i)).
  { replace n with (i + S (n - S i)) at 1 by lia.
    rewrite seq_app. reflexivity. }
  rewrite Hsplit.
  apply bind_raises.
  rewrite (for_each_first_failure (EvCall "variance_inflation_factor")
             (variance_inflation_factor X) vif (seq 0 i) (seq (S i) (n - S i)) i what w).
  - now rewrite length_seq.
  - intros j Hj. apply Hbefore. apply in_seq in Hj. lia.
  - exact Hfail.
Qed.

Lemma calculate_vif_stops_at_first_failure_witness :
  calculate_vif sm_add_constant
    (fun X i => if Nat.eqb i 1 then Fails "LinAlgError" else mock_vif X i) X3 []
  = (Raises (LibraryError "LinAlgError"),
     repeat (EvCall "variance_inflation_factor") 2).
Proof.
  apply (calculate_vif_stops_at_first_failure sm_add_constant
           (fun X i => if Nat.eqb i 1 then Fails "LinAlgError" else mock_vif X i)
           X3 (fun i => float_of_nat (S i)) 1 "LinAlgError" []).
  - simpl. lia.
  - intros j Hj. assert (j = 0) as -> by lia. reflexivity.
  - reflexivity.
Defined.

(** ** The Lasso model *)

(** The model [get_lasso_model] returns was fitted with the regularisation
    strength 0.01; it has a [predict] method, so [get_sse] accepts it, and
    [check_model_assumptions] hands it to the ridge/lasso checks.  When the
    fit raises, so does [get_lasso_model]. *)
Theorem get_lasso_model_is_a_lasso
    (lasso_fit : float -> DataFrame -> vector -> answer (DataFrame -> answer vector))
    (add_constant : has_constant -> DataFrame -> DataFrame)
    (normal_ad : vector -> answer (float * float))
    (corr : DataFrame -> answer matrix) (show : figure -> answer unit)
    (independence_of_errors_assumption :
       model -> DataFrame -> vector -> bool -> M (option string * float))
    (equal_variance_assumption :
       model -> DataFrame -> vector -> float -> bool -> M (string * float))
    (are_assumptions_satisfied_ridge_lasso are_assumptions_satisfied_logistic :
       model -> DataFrame -> vector -> float -> M py_value)
    (features : DataFrame) (labels : vector) (w : log) :
  (forall fitted_predict,
      lasso_fit 0.01%float features labels = Ok fitted_predict ->
      exists lasso_model,
        get_lasso_model lasso_fit features labels w
        = (Returns lasso_model, w ++ [EvCall "Lasso.fit"])
        /\ predict_method lasso_model = Some fitted_predict
        /\ typed Lasso lasso_model
        /\ (forall X y w0 msg,
              fst (get_sse add_constant lasso_model X y w0) <> Raises (ValueError msg))
        /\ (forall X y t,
              check_model_assumptions add_constant normal_ad corr show
                independence_of_errors_assumption equal_variance_assumption
                are_assumptions_satisfied_ridge_lasso
                are_assumptions_satisfied_logistic lasso_model X y t
              = are_assumptions_satisfied_ridge_lasso lasso_model X y t))
  /\ (forall what,
      lasso_fit 0.01%float features labels = Fails what ->
      get_lasso_model lasso_fit features labels w
      = (Raises (LibraryError what), w ++ [EvCall "Lasso.fit"])).
Proof.
  split.
  - intros fitted_predict Hfit.
    exists (mkModel (py_class_eqb Lasso) (Some fitted_predict) nan).
    split; [|split; [|split; [|split]]].
    + unfold get_lasso_model, bind, call, ret. rewrite Hfit. reflexivity.
    + reflexivity.
    + intro c. reflexivity.
    + intros X y w0 msg.
      rewrite (get_sse_with_predict add_constant
                 (mkModel (py_class_eqb Lasso) (Some fitted_predict) nan)
                 X y fitted_predict w0 eq_refl).
      destruct (fitted_predict _) as [y_pred|what]; [|discriminate].
      destruct (elementwise PrimFloat.sub y y_pred); discriminate.
    + intros X y t. reflexivity.
  - intros what Hfit. unfold get_lasso_model, bind, call. rewrite Hfit. reflexivity.
Qed.

Lemma get_lasso_model_is_a_lasso_witness :
  exists lasso_model,
    get_lasso_model (mock_lasso_fit [1; 2; 4]%float) X3 [1; 2; 3]%float []
    = (Returns lasso_model, [EvCall "Lasso.fit"])
    /\ patched_check_model_assumptions lasso_model X3 [1; 2; 3]%float 0.05%float
       = mock_handler "are_assumptions_satisfied_ridge_lasso" lasso_model X3
           [1; 2; 3]%float 0.05%float.
Proof.
  destruct (proj1 (get_lasso_model_is_a_lasso (mock_lasso_fit [1; 2; 4]%float)
                     sm_add_constant (mock_normal_ad 0.2 0.6) pandas_corr mock_show
                     (mock_independence None 2) (mock_equal_variance "equal" 0.3)
                     (mock_handler "are_assumptions_satisfied_ridge_lasso")
                     (mock_handler "are_assumptions_satisfied_logistic")
                     X3 [1; 2; 3]%float [])
              (fun _ => Ok [1; 2; 4]%float) eq_refl)
    as [lasso_model [Hrun [_ [_ [_ Hcheck]]]]].
  exists lasso_model. split; [exact Hrun | apply Hcheck].
Defined.

(** ** More on perfect collinearity *)

(** With a single feature the correlation matrix is its diagonal, and
    [perfect_collinearity_assumption] returns false whatever the entry. *)
Theorem perfect_collinearity_single_feature
    (corr : DataFrame -> answer matrix) (show : figure -> answer unit)
    (features : DataFrame) (plot : bool) (w : log) (x : float) :
  corr features = Ok [[x]] ->
  (plot = true -> show (CorrelationHeatmap [[x]]) = Ok tt) ->
  fst (perfect_collinearity_assumption corr show features plot w) = Returns false.
Proof.
  intros Hc Hshow.
  rewrite (perfect_collinearity_assumption_returns corr show features plot w [[x]]
             Hc Hshow).
  reflexivity.
Qed.

Lemma perfect_collinearity_single_feature_witness :
  fst (perfect_collinearity_assumption pandas_corr mock_show
         (frame_of 3 [("BMI", [19.5; 24; 31]%float)]) true [])
  = Returns false.
Proof.
  apply (perfect_collinearity_single_feature pandas_corr mock_show
           (frame_of 3 [("BMI", [19.5; 24; 31]%float)]) true [] 1%float eq_refl
           (fun _ => eq_refl)).
Defined.

(** The check looks at the strength of a correlation, not at its direction:
    two sets of features whose correlation matrices are opposite off the
    diagonal get the same answer. *)
Theorem perfect_collinearity_ignores_sign
    (corr : DataFrame -> answer matrix) (show : figure -> answer unit)
    (features features' : DataFrame) (w w' : log) (c c' : matrix) :
  corr features = Ok c ->
  corr features' = Ok c' ->
  (forall i j, i <> j -> entry c' i j = option_map PrimFloat.opp (entry c i j)) ->
  fst (perfect_collinearity_assumption corr show features' false w')
  = fst (perfect_collinearity_assumption corr show features false w).
Proof.
  intros Hc Hc' Hopp.
  rewrite (perfect_collinearity_assumption_returns corr show features false w c Hc)
    by discriminate.
  rewrite (perfect_collinearity_assumption_returns corr show features' false w' c' Hc')
    by discriminate.
  cbn [fst]. f_equal. apply eq_true_iff_eq. unfold fill_diagonal.
  rewrite !(any_any_fill_diagonal_from (fun x => gtb (abs x) 0.999) _ 0 eq_refl).
  split; intros [i [j [x [Hij [He Hx]]]]]; cbn [Nat.add] in Hij.
  - rewrite (Hopp i j (fun E => Hij (eq_sym E))) in He.
    destruct (entry c i j) as [x'|] eqn:E; [|discriminate].
    injection He as <-. rewrite abs_opp in Hx.
    exists i, j, x'. repeat split; assumption.
  - exists i, j, (- x)%float. repeat split; [exact Hij | |now rewrite abs_opp].
    rewrite (Hopp i j (fun E => Hij (eq_sym E))), He. reflexivity.
Qed.

Lemma perfect_collinearity_ignores_sign_witness :
  fst (perfect_collinearity_assumption pandas_corr mock_show X3_mirrored false [])
  = fst (perfect_collinearity_assumption pandas_corr mock_show X3_duplicated false []).
Proof.
  apply (perfect_collinearity_ignores_sign pandas_corr mock_show X3_duplicated
           X3_mirrored [] [] [[1; 1]; [1; 1]]%float [[1; -1]; [-1; 1]]%float
           eq_refl eq_refl).
  intros i j Hij.
  destruct i as [|[|i]]; destruct j as [|[|j]];
    try (elim Hij; reflexivity); unfold entry; cbn [nth_error option_map];
    try reflexivity; try (destruct j; reflexivity); destruct i; reflexivity.
Defined.

(** ** More on the table of missing values *)

Lemma check_for_missing_values_rows (df : DataFrame) :
  check_for_missing_values df
  = map (missing_row_of (nrows df))
        (filter (fun c => existsb isna (snd c)) (columns df)).
Proof.
  unfold check_for_missing_values, isna_sum.
  rewrite zip_with_map_r.
  generalize (nrows df) as n. intro n.
  induction (columns df) as [|c cols IH]; simpl; [reflexivity|].
  rewrite count_nonzero_iff_some_missing.
  destruct (existsb isna (snd c)); simpl; [|exact IH].
  rewrite IH. unfold missing_row_of. simpl.
  rewrite (float_mul_comm 100). reflexivity.
Qed.

Lemma filter_length_le_all {A} (p : A -> bool) (l : list A) :
  length (filter p l) <= length l.
Proof.
  induction l as [|a l IH]; simpl; [lia|]. destruct (p a); simpl; lia.
Qed.

Lemma existsb_filter_nonempty {A} (p : A -> bool) (l : list A) :
  existsb p l = true -> 1 <= length (filter p l).
Proof.
  induction l as [|a l IH]; simpl; [discriminate|].
  destruct (p a); simpl; [lia | exact IH].
Qed.

Lemma in_labels_of_filter {A} (p : string * A -> bool) (l : list (string * A))
    (name : string) :
  In name (map fst (filter p l)) -> In name (map fst l).
Proof.
  induction l as [|c l IH]; simpl; [tauto|].
  destruct (p c); simpl; tauto.
Qed.

(** The table of [check_for_missing_values] never has more rows than the
    frame has columns; every row counts at least one missing cell and at
    most as many as its column has cells; and when the labels of the frame
    are distinct, so are the labels of the table. *)
Theorem check_for_missing_values_bounds (df : DataFrame) :
  let table := check_for_missing_values df in
  length table <= length (columns df)
  /\ Forall (fun r => exists col,
                 In (column_label r, col) (columns df)
                 /\ 1 <= n_missing r <= length col) table
  /\ (NoDup (map fst (columns df)) -> NoDup (map column_label table)).
Proof.
  intro table. unfold table. rewrite check_for_missing_values_rows.
  split; [|split].
  - rewrite length_map. apply filter_length_le_all.
  - apply Forall_forall. intros r Hr. apply in_map_iff in Hr.
    destruct Hr as [[name col] [<- Hin]]. apply filter_In in Hin.
    destruct Hin as [Hin Hex]. exists col. cbn [missing_row_of column_label n_missing fst snd] in *.
    split; [exact Hin|]. split.
    + apply existsb_filter_nonempty, Hex.
    + apply filter_length_le_all.
  - rewrite map_map. cbn [missing_row_of column_label].
    induction (columns df) as [|c cols IH]; simpl; [constructor|].
    intro Hnd. inversion Hnd as [|? ? Hnotin Hnd']; subst.
    destruct (existsb isna (snd c)); [|apply IH, Hnd'].
    cbn [map]. constructor; [|apply IH, Hnd'].
    intro Hin. apply Hnotin.
    apply (in_labels_of_filter (fun c => existsb isna (snd c)) cols (fst c)).
    rewrite <- (map_map (missing_row_of (nrows df)) column_label) in Hin.
    rewrite map_map in Hin. exact Hin.
Qed.

Lemma check_for_missing_values_bounds_witness :
  NoDup (map column_label (check_for_missing_values patients)).
Proof.
  apply (proj2 (proj2 (check_for_missing_values_bounds patients))).
  repeat constructor; simpl; intuition discriminate.
Defined.
